(** * Agentic-Code-Generator: the Flask request handlers of [app.py] and
      [app_v2.py] over the CrewAI library, as a shallow embedding.

    The two applications are thin glue: a handler reads the JSON body of a
    request, builds a fixed list of CrewAI tasks, hands it to the library and
    turns the outcome into a JSON response.  The embedding keeps that shape.

    - Python strings are sequences of Unicode code points ([list N]).
    - The values that cross the HTTP boundary (parsed request bodies, the
      dictionaries given to [jsonify]) are the inductive [pyval]; Python
      dictionaries are finite maps ([gmap]).
    - Everything outside the repository (the CrewAI constructors, the
      executor [Crew.kickoff], the interpreter's [str] and [str.upper]) is a
      field of the record [World].  A library call may raise, and what it does
      may depend on everything that happened earlier in the process.
    - Handlers run in the monad [M]: they read the history of events, emit new
      events (console output and library calls with their outcomes), and
      either return a value or raise a Python exception. *)

From Stdlib Require Import ZArith NArith QArith String Ascii List Bool Lia.
From stdpp Require Import base option list gmap.
Import ListNotations.

#[local] Set Warnings "-register-all".
#[local] Open Scope Z_scope.
#[local] Open Scope list_scope.

(** ** Python strings *)

Definition pystr : Type := list N.

(** A literal of the source, character by character. *)
Definition lit (s : string) : pystr := map N_of_ascii (list_ascii_of_string s).

(** The newline character, ['\n']. *)
Definition NL : N := 10%N.

(** [str.isspace] on one character, the table [str.split()] uses
    (CPython's [_PyUnicode_IsWhitespace]). *)
Definition is_space (c : N) : bool :=
  ((9 <=? c) && (c <=? 13))%N
  || ((28 <=? c) && (c <=? 32))%N
  || (c =? 133)%N || (c =? 160)%N || (c =? 5760)%N
  || ((8192 <=? c) && (c <=? 8202))%N
  || (c =? 8232)%N || (c =? 8233)%N || (c =? 8239)%N
  || (c =? 8287)%N || (c =? 12288)%N.

Definition str_empty (s : pystr) : bool :=
  match s with [] => true | _ :: _ => false end.

(** [s.split()] with no argument: the maximal runs of non-whitespace
    characters, in order.  [word] holds the current run, reversed. *)
Fixpoint split_from (word : pystr) (s : pystr) : list pystr :=
  match s with
  | [] => if str_empty word then [] else [rev word]
  | c :: rest =>
      if is_space c
      then (if str_empty word then split_from [] rest
            else rev word :: split_from [] rest)
      else split_from (c :: word) rest
  end.

Definition str_split (s : pystr) : list pystr := split_from [] s.

(** [s.count(c)] for a one-character [c]. *)
Fixpoint str_count (c : N) (s : pystr) : nat :=
  match s with
  | [] => O
  | x :: rest => if (x =? c)%N then S (str_count c rest) else str_count c rest
  end.

Fixpoint str_startswith (p s : pystr) : bool :=
  match p, s with
  | [], _ => true
  | _ :: _, [] => false
  | a :: p', b :: s' => (a =? b)%N && str_startswith p' s'
  end.

(** [p in s] on strings. *)
Fixpoint str_in (p s : pystr) : bool :=
  match s with
  | [] => str_empty p
  | _ :: rest => str_startswith p s || str_in p rest
  end.

(** ASCII case mapping, the part of [str.upper] that is the same in every
    interpreter; used for the concrete worlds below. *)
Definition ascii_upper (s : pystr) : pystr :=
  map (fun c => if ((97 <=? c) && (c <=? 122))%N then (c - 32)%N else c) s.

(** ** Python values *)

(** Values of the JSON types, as [request.get_json()] returns them and as
    [jsonify] takes them. *)
Inductive pyval : Type :=
| PNone
| PBool (b : bool)
| PInt (z : Z)
| PFloat (q : Q)
| PStr (s : pystr)
| PList (l : list pyval)
| PDict (m : gmap (list N) pyval).

(** Truth value of a Python object, as [if v] and [not v] test it. *)
Definition truthy (v : pyval) : bool :=
  match v with
  | PNone => false
  | PBool b => b
  | PInt z => negb (z =? 0)
  | PFloat q => negb (Qnum q =? 0)
  | PStr s => negb (str_empty s)
  | PList l => match l with [] => false | _ :: _ => true end
  | PDict m => negb (Nat.eqb (size m) 0)
  end.

Definition type_name (v : pyval) : pystr :=
  match v with
  | PNone => lit "NoneType"
  | PBool _ => lit "bool"
  | PInt _ => lit "int"
  | PFloat _ => lit "float"
  | PStr _ => lit "str"
  | PList _ => lit "list"
  | PDict _ => lit "dict"
  end.

(** Python exceptions (instances of [Exception]); a handler only ever looks
    at [str(e)]. *)
Record exn : Type := Exn { exn_class : pystr; exn_str : pystr }.

Definition AttributeError (v : pyval) (attr : pystr) : exn :=
  Exn (lit "AttributeError")
      (lit "'" ++ type_name v ++ lit "' object has no attribute '" ++ attr ++ lit "'").

Definition ValueError (msg : pystr) : exn := Exn (lit "ValueError") msg.

(** ** CrewAI objects: the keyword arguments they were built from *)

Record LLM : Type := mkLLM {
  llm_model : pystr;
  llm_api_key : option pystr;
  llm_temperature : Q
}.

(** What the module-level name [llm] can hold in [app_v2.py]: an [LLM]
    object, a plain dictionary, or [None]. *)
Inductive llm_ref : Type :=
| LLMObject (l : LLM)
| LLMDict (m : gmap (list N) pyval)
| LLMNone.

Record Agent : Type := mkAgent {
  role : pystr;
  goal : pystr;
  backstory : pystr;
  agent_verbose : bool;
  allow_delegation : option bool;
  agent_llm : llm_ref
}.

Record Task : Type := mkTask {
  description : pystr;
  agent : option Agent;
  expected_output : pystr
}.

Inductive Process : Type := sequential | hierarchical.

Record Crew : Type := mkCrew {
  agents : list (option Agent);
  tasks : list Task;
  process : Process;
  crew_verbose : bool
}.

(** What [crew.kickoff()] hands back: a string, or an object of the library
    of which the handler observes the truth value and [str(result)]. *)
Inductive kickoff_result : Type :=
| StrResult (s : pystr)
| ObjResult (is_true : bool) (shown : pystr).

Definition result_truthy (r : kickoff_result) : bool :=
  match r with
  | StrResult s => negb (str_empty s)
  | ObjResult b _ => b
  end.

Definition result_str (r : kickoff_result) : pystr :=
  match r with
  | StrResult s => s
  | ObjResult _ s => s
  end.

(** ** Events, the world, and the monad of handlers *)

(** A library call is recorded with its outcome: [None] when the constructor
    returned, [Some e] when it raised [e]. *)
Inductive event : Type :=
| EvPrint (s : pystr)
| EvPrintExc (e : exn)
| EvLLM (l : LLM) (raised : option exn)
| EvAgent (a : Agent) (raised : option exn)
| EvTask (t : Task) (raised : option exn)
| EvCrew (c : Crew) (raised : option exn)
| EvKickoff (c : Crew) (outcome : exn + kickoff_result).

Record World : Type := mkWorld {
(** [str(v)] for a value that is not a string *)
  rt_str : pyval -> pystr;
(** [s.upper()] *)
  rt_upper : pystr -> pystr;
(** the constructors of the library, given the history so far *)
  lib_LLM : list event -> LLM -> option exn;
  lib_Agent : list event -> Agent -> option exn;
  lib_Task : list event -> Task -> option exn;
  lib_Crew : list event -> Crew -> option exn;
(** the executor *)
  lib_kickoff : list event -> Crew -> exn + kickoff_result
}.

Definition M (A : Type) : Type := list event -> (exn + A) * list event.

Definition ret {A} (a : A) : M A := fun _ => (inr a, []).

Definition raise {A} (e : exn) : M A := fun _ => (inl e, []).

Definition bind {A B} (m : M A) (f : A -> M B) : M B :=
  fun h =>
    match m h with
    | (inl e, evs) => (inl e, evs)
    | (inr a, evs) =>
        match f a (h ++ evs) with
        | (r, evs') => (r, evs ++ evs')
        end
    end.

(** [try: body except Exception as e: handler e] *)
Definition try_except {A} (body : M A) (handler : exn -> M A) : M A :=
  fun h =>
    match body h with
    | (inl e, evs) =>
        match handler e (h ++ evs) with
        | (r, evs') => (r, evs ++ evs')
        end
    | (inr a, evs) => (inr a, evs)
    end.

Notation "x <- m ;; k" := (bind m (fun x => k))
  (at level 100, m at next level, right associativity).
Notation "m ;;; k" := (bind m (fun _ => k))
  (at level 100, right associativity).

Definition print (s : pystr) : M unit := fun _ => (inr tt, [EvPrint s]).

(** [traceback.print_exc()] *)
Definition print_exc (e : exn) : M unit := fun _ => (inr tt, [EvPrintExc e]).

(** The exception an event records, if the call raised. *)
Definition raised_by (ev : event) : option exn :=
  match ev with
  | EvLLM _ o | EvAgent _ o | EvTask _ o | EvCrew _ o => o
  | EvKickoff _ (inl e) => Some e
  | _ => None
  end.

(** A Stage ([Task]) or a pipeline ([Crew]) is being constructed. *)
Definition is_construction (ev : event) : bool :=
  match ev with
  | EvTask _ _ | EvCrew _ _ => true
  | _ => false
  end.

(** The executor is called (the only place a model call can come from). *)
Definition is_model_call (ev : event) : bool :=
  match ev with
  | EvKickoff _ _ => true
  | _ => false
  end.

(** ** Flask: requests and responses *)

(** [request.get_json()] raises (a body that is not JSON) or returns the
    parsed body, which may be any JSON value. *)
Record Request : Type := mkRequest { get_json : exn + pyval }.

(** [return jsonify(d), status]; a bare [return jsonify(d)] is status 200. *)
Record Response : Type := mkResponse { resp_json : pyval; resp_status : Z }.

Definition jsonify (fields : list (pystr * pyval)) : pyval :=
  PDict (list_to_map fields).

(** Field [k] of a JSON object. *)
Definition field (k : string) (v : pyval) : option pyval :=
  match v with
  | PDict m => m !! lit k
  | _ => None
  end.

(** [d.get(key, default)] on a dictionary. *)
Definition dict_get (m : gmap (list N) pyval) (key : string) (default : pyval) : pyval :=
  match m !! lit key with
  | Some v => v
  | None => default
  end.

Section Runtime.
Variable W : World.

(** [str(v)], as an f-string formats [{v}]. *)
Definition py_str (v : pyval) : pystr :=
  match v with
  | PStr s => s
  | _ => rt_str W v
  end.

Definition request_get_json (req : Request) : M pyval :=
  fun _ => (get_json req, []).

(** [data.get(key, default)]: only dictionaries have the method. *)
Definition py_get (data : pyval) (key : string) (default : pyval) : M pyval :=
  match data with
  | PDict m => ret (dict_get m key default)
  | _ => raise (AttributeError data (lit "get"))
  end.

Definition LLM_new (l : LLM) : M LLM :=
  fun h => match lib_LLM W h l with
           | Some e => (inl e, [EvLLM l (Some e)])
           | None => (inr l, [EvLLM l None])
           end.

Definition Agent_new (a : Agent) : M Agent :=
  fun h => match lib_Agent W h a with
           | Some e => (inl e, [EvAgent a (Some e)])
           | None => (inr a, [EvAgent a None])
           end.

Definition Task_new (t : Task) : M Task :=
  fun h => match lib_Task W h t with
           | Some e => (inl e, [EvTask t (Some e)])
           | None => (inr t, [EvTask t None])
           end.

Definition Crew_new (c : Crew) : M Crew :=
  fun h => match lib_Crew W h c with
           | Some e => (inl e, [EvCrew c (Some e)])
           | None => (inr c, [EvCrew c None])
           end.

Definition Crew_kickoff (c : Crew) : M kickoff_result :=
  fun h => (lib_kickoff W h c, [EvKickoff c (lib_kickoff W h c)]).
End Runtime.

(** ** [app.py]: the code-generation application *)

Module App.

(** The module-level names of [app.py] once the module is loaded. *)
Record Globals : Type := mkGlobals {
  api_key : option pystr;
  llm : LLM;
  flowchart_agent : Agent;
  choice_provider_agent : Agent;
  architecture_agent : Agent;
  code_generator_agent : Agent;
  design_enhancer_agent : Agent;
  error_fixer_agent : Agent;
  testing_agent : Agent;
  delivery_agent : Agent
}.

Inductive route : Type :=
| POST_generate_code
| GET_health.

Definition key_truthy (k : option pystr) : bool :=
  match k with
  | Some s => negb (str_empty s)
  | None => false
  end.

Section Handlers.
Variable W : World.

(** The statements of the module that run at import, with
    [getenv = os.getenv(GEMINI_API_KEY)]. *)
Definition import_module (getenv : option pystr) : M Globals :=
  let api_key := getenv in
  if negb (key_truthy api_key)
  then raise (ValueError (lit "GEMINI_API_KEY not found in environment variables"))
  else
  llm <- LLM_new W {|
    llm_model := lit "gemini/gemini-1.5-flash";
    llm_api_key := api_key;
    llm_temperature := 7 # 10
  |} ;;
  flowchart_agent <- Agent_new W {|
    role := lit "Flowchart Generator";
    goal := lit "Create detailed flowcharts and visual representations of application logic";
    backstory :=
      lit "You are an expert system analyst who creates clear, comprehensive flowcharts and diagrams to visualize application workflow and logic.";
    agent_verbose := true;
    allow_delegation := Some false;
    agent_llm := LLMObject llm
  |} ;;
  choice_provider_agent <- Agent_new W {|
    role := lit "Technology Choice Provider";
    goal := lit "Recommend the best technology stack based on requirements";
    backstory :=
      lit "You are a senior architect who evaluates requirements and recommends optimal technology choices between Streamlit, Flask with HTML/CSS, or pure HTML/CSS solutions.";
    agent_verbose := true;
    allow_delegation := Some false;
    agent_llm := LLMObject llm
  |} ;;
  architecture_agent <- Agent_new W {|
    role := lit "System Architecture Designer";
    goal := lit "Design comprehensive system architecture based on chosen technology";
    backstory :=
      lit "You are a system architect who creates detailed technical architecture, including file structure, component relationships, and system design patterns.";
    agent_verbose := true;
    allow_delegation := Some false;
    agent_llm := LLMObject llm
  |} ;;
  code_generator_agent <- Agent_new W {|
    role := lit "Code Generator";
    goal := lit "Generate complete, functional code based on architecture specifications";
    backstory :=
      lit "You are an expert full-stack developer who writes clean, efficient, and well-structured code in multiple programming languages and frameworks.";
    agent_verbose := true;
    allow_delegation := Some false;
    agent_llm := LLMObject llm
  |} ;;
  design_enhancer_agent <- Agent_new W {|
    role := lit "Design & Animation Enhancer";
    goal := lit "Enhance code with modern UI/UX, animations, and advanced features";
    backstory :=
      lit "You are a creative frontend developer who specializes in modern UI/UX design, CSS animations, and interactive user experiences.";
    agent_verbose := true;
    allow_delegation := Some false;
    agent_llm := LLMObject llm
  |} ;;
  error_fixer_agent <- Agent_new W {|
    role := lit "Code Error Fixer";
    goal := lit "Identify and fix all errors, bugs, and issues in the code";
    backstory :=
      lit "You are a debugging expert who systematically identifies and resolves code errors, ensuring clean, bug-free, and optimized code.";
    agent_verbose := true;
    allow_delegation := Some false;
    agent_llm := LLMObject llm
  |} ;;
  testing_agent <- Agent_new W {|
    role := lit "Code Testing Specialist";
    goal := lit "Test code thoroughly to ensure error-free execution and proper functionality";
    backstory :=
      lit "You are a QA engineer who creates comprehensive test cases, validates functionality, and ensures code reliability and performance.";
    agent_verbose := true;
    allow_delegation := Some false;
    agent_llm := LLMObject llm
  |} ;;
  delivery_agent <- Agent_new W {|
    role := lit "Code Delivery Specialist";
    goal := lit "Package and present the final code solution with proper documentation";
    backstory :=
      lit "You are a technical documentation expert who organizes, formats, and presents code solutions with clear instructions, architecture diagrams, and user guides.";
    agent_verbose := true;
    allow_delegation := Some false;
    agent_llm := LLMObject llm
  |} ;;
  ret {|
    api_key := api_key;
    llm := llm;
    flowchart_agent := flowchart_agent;
    choice_provider_agent := choice_provider_agent;
    architecture_agent := architecture_agent;
    code_generator_agent := code_generator_agent;
    design_enhancer_agent := design_enhancer_agent;
    error_fixer_agent := error_fixer_agent;
    testing_agent := testing_agent;
    delivery_agent := delivery_agent
  |}.

Variable G : Globals.

Definition create_code_generation_crew (project_description requirements : pyval)
    : M Crew :=
  flowchart_task <- Task_new W {|
    description :=
      lit "Create a detailed flowchart for the project: "
      ++ py_str W project_description
      ++ lit "
        
        Requirements: "
      ++ py_str W requirements
      ++ lit "
        
        Generate:
        1. Application workflow diagram
        2. User interaction flow
        3. Data flow diagram
        4. Component relationship diagram
        5. Process flow with decision points
        
        Provide a detailed textual representation of the flowchart.";
    agent := Some (flowchart_agent G);
    expected_output :=
      lit "A comprehensive flowchart description with all workflow components and relationships."
  |} ;;
  choice_task <- Task_new W {|
    description :=
      lit "Analyze the project requirements and recommend the best technology stack:
        
        Project: "
      ++ py_str W project_description
      ++ lit "
        Requirements: "
      ++ py_str W requirements
      ++ lit "
        
        Available Options:
        1. Streamlit (for data-focused, rapid prototyping)
        2. Flask with HTML/CSS (for full-stack web applications)
        3. Pure HTML/CSS/JavaScript (for frontend-only solutions)
        
        Provide:
        1. Recommended technology choice with reasoning
        2. Pros and cons of the chosen technology
        3. Alternative options if applicable
        4. Required dependencies and setup";
    agent := Some (choice_provider_agent G);
    expected_output :=
      lit "Technology recommendation with detailed justification and setup requirements."
  |} ;;
  architecture_task <- Task_new W {|
    description :=
      lit "Design comprehensive system architecture based on the chosen technology:
        
        Project: "
      ++ py_str W project_description
      ++ lit "
        Technology Choice: [From previous task]
        
        Create:
        1. Detailed file structure
        2. Component architecture
        3. Database design (if needed)
        4. API endpoints (if applicable)
        5. Security considerations
        6. Deployment strategy
        7. Configuration requirements";
    agent := Some (architecture_agent G);
    expected_output :=
      lit "Complete system architecture with file structure, components, and technical specifications."
  |} ;;
  code_generation_task <- Task_new W {|
    description :=
      lit "Generate complete, functional code based on the architecture:
        
        Project: "
      ++ py_str W project_description
      ++ lit "
        Architecture: [From previous task]
        
        Generate:
        1. All necessary code files
        2. Configuration files
        3. Requirements/dependencies
        4. Database schemas (if needed)
        5. API implementations
        6. Frontend components
        7. Main application logic
        
        Ensure code is clean, well-commented, and follows best practices.";
    agent := Some (code_generator_agent G);
    expected_output :=
      lit "Complete codebase with all necessary files and implementations."
  |} ;;
  design_enhancement_task <- Task_new W {|
    description :=
      lit "Enhance the generated code with modern design and animations:
        
        Add:
        1. Modern, responsive UI design
        2. CSS animations and transitions
        3. Interactive elements
        4. Loading states and progress indicators
        5. Error handling with user-friendly messages
        6. Mobile-responsive design
        7. Accessibility features
        8. Performance optimizations
        
        Focus on creating an engaging, professional user experience.";
    agent := Some (design_enhancer_agent G);
    expected_output :=
      lit "Enhanced code with modern UI/UX, animations, and interactive features."
  |} ;;
  error_fixing_task <- Task_new W {|
    description :=
      lit "Review and fix all errors in the code:
        
        Check for:
        1. Syntax errors
        2. Logic errors
        3. Import/dependency issues
        4. Configuration problems
        5. Security vulnerabilities
        6. Performance issues
        7. Compatibility problems
        8. Code optimization opportunities
        
        Provide clean, error-free, optimized code.";
    agent := Some (error_fixer_agent G);
    expected_output :=
      lit "Clean, error-free, and optimized code with all issues resolved."
  |} ;;
  testing_task <- Task_new W {|
    description :=
      lit "Test the code comprehensively:
        
        Perform:
        1. Unit testing
        2. Integration testing
        3. User interface testing
        4. Performance testing
        5. Error handling testing
        6. Edge case testing
        7. Cross-browser/platform testing
        8. Security testing
        
        Provide test results and ensure everything works correctly.";
    agent := Some (testing_agent G);
    expected_output :=
      lit "Comprehensive test results confirming error-free execution and proper functionality."
  |} ;;
  delivery_task <- Task_new W {|
    description :=
      lit "Package and present the final code solution:
        
        Provide:
        1. Complete, organized codebase
        2. Detailed README with setup instructions
        3. Architecture documentation
        4. API documentation (if applicable)
        5. User guide
        6. Deployment instructions
        7. Troubleshooting guide
        8. Future enhancement suggestions
        
        Present everything in a professional, easy-to-understand format.";
    agent := Some (delivery_agent G);
    expected_output :=
      lit "Complete, well-documented code solution ready for deployment and use."
  |} ;;
  crew <- Crew_new W {|
    agents := [
      Some (flowchart_agent G); Some (choice_provider_agent G);
      Some (architecture_agent G); Some (code_generator_agent G);
      Some (design_enhancer_agent G); Some (error_fixer_agent G);
      Some (testing_agent G); Some (delivery_agent G)
    ];
    tasks := [
      flowchart_task; choice_task; architecture_task;
      code_generation_task; design_enhancement_task; error_fixing_task;
      testing_task; delivery_task
    ];
    process := sequential;
    crew_verbose := true
  |} ;;
  ret crew.

Definition processing_phases : pyval :=
  PList [
    PStr (lit "Flowchart Generation");
    PStr (lit "Technology Selection");
    PStr (lit "Architecture Design");
    PStr (lit "Code Generation");
    PStr (lit "Design Enhancement");
    PStr (lit "Error Fixing");
    PStr (lit "Testing");
    PStr (lit "Final Delivery")
  ].

(** The three responses of [generate_code], in the order of the source:
    the rejection of a request without description, ... *)
Definition description_required : Response := {|
  resp_json := jsonify [(lit "error", PStr (lit "Project description is required"))];
  resp_status := 400
|}.

(** ... the success response, built from the two request fields and the
    [result] of the executor, ... *)
Definition code_generated (project_description requirements : pyval)
    (result : kickoff_result) : Response := {|
  resp_json := jsonify [
    (lit "success", PBool true);
    (lit "generated_code", PStr (result_str result));
    (lit "project_description", project_description);
    (lit "requirements", requirements);
    (lit "stats", jsonify [
      (lit "agents_used", PInt 8);
      (lit "processing_phases", processing_phases);
      (lit "word_count",
         if result_truthy result
         then PInt (Z.of_nat (length (str_split (result_str result))))
         else PInt 0);
      (lit "lines_of_code",
         if result_truthy result
         then PInt (Z.of_nat (str_count NL (result_str result)))
         else PInt 0);
      (lit "processing_time", PStr (lit "45-120 seconds"))
    ])
  ];
  resp_status := 200
|}.

(** ... and the response of the [except] branch. *)
Definition generation_failed (e : exn) : Response := {|
  resp_json := jsonify [
    (lit "success", PBool false);
    (lit "error", PStr (lit "Failed to generate code: " ++ exn_str e))
  ];
  resp_status := 500
|}.

Definition starting_message (project_description : pyval) : pystr :=
  [128640%N] ++ lit " Starting code generation for project: "
  ++ py_str W project_description.

Definition crew_created_message : pystr :=
  [9989%N] ++ lit " AI Code Generation Crew created successfully".

Definition completed_message : pystr :=
  [127881%N] ++ lit " Code generation completed successfully".

Definition error_message (e : exn) : pystr :=
  [10060%N] ++ lit " Error in generate_code: " ++ exn_str e.

(** The body of the [try] of [generate_code]. *)
Definition generate_code_try (req : Request) : M Response :=
  data <- request_get_json req ;;
  project_description <- py_get data "project_description" (PStr (lit "")) ;;
  requirements <- py_get data "requirements" (PStr (lit "")) ;;
  if negb (truthy project_description)
  then ret description_required
  else
    print (starting_message project_description) ;;;
    crew <- create_code_generation_crew project_description requirements ;;
    print crew_created_message ;;;
    result <- Crew_kickoff W crew ;;
    print completed_message ;;;
    ret (code_generated project_description requirements result).

(** The [except Exception as e] of [generate_code]. *)
Definition generate_code_except (e : exn) : M Response :=
  print (error_message e) ;;;
  print_exc e ;;;
  ret (generation_failed e).

Definition generate_code (req : Request) : M Response :=
  try_except (generate_code_try req) generate_code_except.

Definition health : M Response :=
  ret {|
    resp_json := jsonify [
      (lit "status", PStr (lit "healthy"));
      (lit "service", PStr (lit "AI Code Generator"))
    ];
    resp_status := 200
  |}.

(** The routing table built by the [@app.route] decorators, for the
    routes above. *)
Definition dispatch (r : route) (req : Request) : M Response :=
  match r with
  | POST_generate_code => generate_code req
  | GET_health => health
  end.
End Handlers.

(** The routes of [app.py] that read neither the request body nor the
    module-level names. *)
Definition agent_status : M Response :=
  ret {|
    resp_json := jsonify [
    (lit "agents", PList [
      jsonify [
        (lit "name", PStr (lit "Flowchart Generator"));
        (lit "status", PStr (lit "ready"));
        (lit "emoji", PStr ([128202%N]));
        (lit "phase", PInt 1)
      ];
      jsonify [
        (lit "name", PStr (lit "Technology Choice Provider"));
        (lit "status", PStr (lit "ready"));
        (lit "emoji", PStr ([65533%N]));
        (lit "phase", PInt 2)
      ];
      jsonify [
        (lit "name", PStr (lit "Architecture Designer"));
        (lit "status", PStr (lit "ready"));
        (lit "emoji", PStr ([127959%N; 65039%N]));
        (lit "phase", PInt 3)
      ];
      jsonify [
        (lit "name", PStr (lit "Code Generator"));
        (lit "status", PStr (lit "ready"));
        (lit "emoji", PStr ([128187%N]));
        (lit "phase", PInt 4)
      ];
      jsonify [
        (lit "name", PStr (lit "Design Enhancer"));
        (lit "status", PStr (lit "ready"));
        (lit "emoji", PStr ([127912%N]));
        (lit "phase", PInt 5)
      ];
      jsonify [
        (lit "name", PStr (lit "Error Fixer"));
        (lit "status", PStr (lit "ready"));
        (lit "emoji", PStr ([65533%N]));
        (lit "phase", PInt 6)
      ];
      jsonify [
        (lit "name", PStr (lit "Testing Specialist"));
        (lit "status", PStr (lit "ready"));
        (lit "emoji", PStr ([129514%N]));
        (lit "phase", PInt 7)
      ];
      jsonify [
        (lit "name", PStr (lit "Delivery Specialist"));
        (lit "status", PStr (lit "ready"));
        (lit "emoji", PStr ([65533%N]));
        (lit "phase", PInt 8)
      ]
    ])
  ];
    resp_status := 200
  |}.

Definition get_project_templates : M Response :=
  let templates := PList [
    jsonify [
      (lit "name", PStr (lit "E-commerce Website"));
      (lit "description", PStr (lit "Full-stack e-commerce platform with payment integration"));
      (lit "tech_stack", PStr (lit "React, Node.js, MongoDB, Stripe"));
      (lit "features", PList [
        PStr (lit "Product catalog");
        PStr (lit "Shopping cart");
        PStr (lit "User authentication");
        PStr (lit "Payment processing")
      ])
    ];
    jsonify [
      (lit "name", PStr (lit "Task Management App"));
      (lit "description", PStr (lit "Project management tool with team collaboration"));
      (lit "tech_stack", PStr (lit "Vue.js, Express.js, PostgreSQL"));
      (lit "features", PList [
        PStr (lit "Task tracking");
        PStr (lit "Team collaboration");
        PStr (lit "File sharing");
        PStr (lit "Real-time updates")
      ])
    ];
    jsonify [
      (lit "name", PStr (lit "Social Media Dashboard"));
      (lit "description", PStr (lit "Analytics dashboard for social media management"));
      (lit "tech_stack", PStr (lit "React, Python Flask, Chart.js"));
      (lit "features", PList [
        PStr (lit "Analytics visualization");
        PStr (lit "Post scheduling");
        PStr (lit "Multi-platform support")
      ])
    ];
    jsonify [
      (lit "name", PStr (lit "Blog Platform"));
      (lit "description", PStr (lit "Content management system for blogging"));
      (lit "tech_stack", PStr (lit "Next.js, Prisma, PostgreSQL"));
      (lit "features", PList [
        PStr (lit "Rich text editor");
        PStr (lit "Comment system");
        PStr (lit "SEO optimization");
        PStr (lit "User management")
      ])
    ]
  ] in
  ret {|
    resp_json := jsonify [(lit "success", PBool true); (lit "templates", templates)];
    resp_status := 200
  |}.

(** [job_id] is the string Flask cuts out of the path. *)
Definition get_generation_status (job_id : pystr) : M Response :=
  ret {|
    resp_json := jsonify [
    (lit "success", PBool true);
    (lit "job_id", PStr job_id);
    (lit "status", PStr (lit "processing"));
    (lit "progress", PInt 75);
    (lit "current_phase", PStr (lit "Code Generation"));
    (lit "estimated_time_remaining", PStr (lit "30 seconds"))
  ];
    resp_status := 200
  |}.

Inductive static_route : Type :=
| GET_agent_status
| GET_project_templates
| GET_generation_status (job_id : pystr).

Definition dispatch_static (r : static_route) : M Response :=
  match r with
  | GET_agent_status => agent_status
  | GET_project_templates => get_project_templates
  | GET_generation_status job_id => get_generation_status job_id
  end.

End App.

(** ** [app_v2.py]: the news-writer application *)

Module AppV2.

(** The module-level names of [app_v2.py] once the module is loaded. *)
Record Globals : Type := mkGlobals {
  api_key : option pystr;
  llm : llm_ref;
  journalist_agent : option Agent;
  news_writer_agent : option Agent;
  sentence_cleaner_agent : option Agent;
  merger_agent : option Agent
}.

Inductive route : Type :=
| POST_generate_news
| GET_health
| GET_test_api.

Definition key_truthy (k : option pystr) : bool :=
  match k with
  | Some s => negb (str_empty s)
  | None => false
  end.

(** Truth value of a name that holds an [Agent] object or [None]. *)
Definition agent_truthy (a : option Agent) : bool :=
  match a with
  | Some _ => true
  | None => false
  end.

(** The builtin [all] over a list of truth values. *)
Definition all (l : list bool) : bool := forallb (fun b => b) l.

Definition api_message : pystr :=
  lit "API connection failed. Please check your internet connection and API key.".

Definition model_message : pystr :=
  lit "Model configuration error. Please try again.".

Section Handlers.
Variable W : World.

(** [get_llm()]; the import of [crewai.llm] inside the [try] is part of
    the call of the constructor. *)
Definition get_llm (api_key : option pystr) : M llm_ref :=
  try_except
    (l <- LLM_new W {|
       llm_model := lit "gemini/gemini-1.5-flash";
       llm_api_key := api_key;
       llm_temperature := 7 # 10
     |} ;;
     ret (LLMObject l))
    (fun e1 =>
       print (lit "Option 1 failed: " ++ exn_str e1) ;;;
       try_except
         (ret (LLMDict (list_to_map [
            (lit "model", PStr (lit "gemini-1.5-flash"));
            (lit "api_key", match api_key with Some k => PStr k | None => PNone end);
            (lit "temperature", PFloat (7 # 10))
          ])))
         (fun e2 =>
            print (lit "Option 2 failed: " ++ exn_str e2) ;;;
            ret LLMNone)).

Definition create_agents (llm : llm_ref)
  : M (option Agent * option Agent * option Agent * option Agent) :=
  try_except
    (journalist_agent <- Agent_new W {|
       role := lit "Investigative Journalist";
       goal := lit "Research topics and gather information";
       backstory := lit "You research topics thoroughly.";
       agent_verbose := false;
       allow_delegation := None;
       agent_llm := llm
     |} ;;
     news_writer_agent <- Agent_new W {|
       role := lit "News Writer";
       goal := lit "Write engaging news articles";
       backstory := lit "You write compelling news articles.";
       agent_verbose := false;
       allow_delegation := None;
       agent_llm := llm
     |} ;;
     sentence_cleaner_agent <- Agent_new W {|
       role := lit "Content Editor";
       goal := lit "Edit articles for clarity";
       backstory := lit "You edit and improve text.";
       agent_verbose := false;
       allow_delegation := None;
       agent_llm := llm
     |} ;;
     merger_agent <- Agent_new W {|
       role := lit "Final Editor";
       goal := lit "Finalize articles";
       backstory := lit "You prepare final content.";
       agent_verbose := false;
       allow_delegation := None;
       agent_llm := llm
     |} ;;
     ret (Some journalist_agent, Some news_writer_agent,
          Some sentence_cleaner_agent, Some merger_agent))
    (fun e =>
       print (lit "Error creating agents: " ++ exn_str e) ;;;
       ret (None, None, None, None)).

(** The statements of the module that run at import, with
    [getenv = os.getenv(GEMINI_API_KEY)]. *)
Definition import_module (getenv : option pystr) : M Globals :=
  let api_key := getenv in
  if negb (key_truthy api_key)
  then raise (ValueError (lit "GEMINI_API_KEY not found in environment variables"))
  else
    llm <- get_llm api_key ;;
    created <- create_agents llm ;;
    match created with
    | (journalist_agent, news_writer_agent, sentence_cleaner_agent, merger_agent) =>
        ret {|
          api_key := api_key;
          llm := llm;
          journalist_agent := journalist_agent;
          news_writer_agent := news_writer_agent;
          sentence_cleaner_agent := sentence_cleaner_agent;
          merger_agent := merger_agent
        |}
    end.

Variable G : Globals.

(** The body of the [try] of [create_news_crew]. *)
Definition create_news_crew_try (topic : pyval) : M (option Crew) :=
  research_task <- Task_new W {|
    description :=
      lit "Research the topic: " ++ py_str W topic
      ++ lit ". Provide key facts and information.";
    agent := journalist_agent G;
    expected_output := lit "Research findings about the topic."
  |} ;;
  writing_task <- Task_new W {|
    description :=
      lit "Write a news article about " ++ py_str W topic
      ++ lit " based on the research.";
    agent := news_writer_agent G;
    expected_output := lit "A complete news article."
  |} ;;
  cleaning_task <- Task_new W {|
    description := lit "Edit the article for grammar and clarity.";
    agent := sentence_cleaner_agent G;
    expected_output := lit "A polished article."
  |} ;;
  merger_task <- Task_new W {|
    description := lit "Finalize the article for publication.";
    agent := merger_agent G;
    expected_output := lit "Final publication-ready article."
  |} ;;
  crew <- Crew_new W {|
    agents := [journalist_agent G; news_writer_agent G;
               sentence_cleaner_agent G; merger_agent G];
    tasks := [research_task; writing_task; cleaning_task; merger_task];
    process := sequential;
    crew_verbose := false
  |} ;;
  ret (Some crew).

Definition create_news_crew (topic : pyval) : M (option Crew) :=
  try_except (create_news_crew_try topic)
    (fun e =>
       print (lit "Error creating crew: " ++ exn_str e) ;;;
       ret None).

(** The four responses of the [try] of [generate_news], in the order of
    the source. *)
Definition topic_required : Response := {|
  resp_json := jsonify [(lit "error", PStr (lit "Topic is required"))];
  resp_status := 400
|}.

Definition agents_not_initialized : Response := {|
  resp_json := jsonify [
    (lit "success", PBool false);
    (lit "error",
       PStr (lit "Agents not properly initialized. Please check your API key and try again."))
  ];
  resp_status := 500
|}.

Definition crew_not_created : Response := {|
  resp_json := jsonify [
    (lit "success", PBool false);
    (lit "error", PStr (lit "Failed to create crew. Please try again."))
  ];
  resp_status := 500
|}.

Definition article_written (result : kickoff_result) : Response := {|
  resp_json := jsonify [
    (lit "success", PBool true);
    (lit "article", PStr (result_str result))
  ];
  resp_status := 200
|}.

Definition generating_message (topic : pyval) : pystr :=
  lit "Generating news for topic: " ++ py_str W topic.

(** The body of the [try] of [generate_news]. *)
Definition generate_news_try (req : Request) : M Response :=
  data <- request_get_json req ;;
  topic <- py_get data "topic" (PStr (lit "")) ;;
  if negb (truthy topic)
  then ret topic_required
  else if negb (all [agent_truthy (journalist_agent G);
                     agent_truthy (news_writer_agent G);
                     agent_truthy (sentence_cleaner_agent G);
                     agent_truthy (merger_agent G)])
  then ret agents_not_initialized
  else
    print (generating_message topic) ;;;
    crew <- create_news_crew topic ;;
    match crew with
    | None => ret crew_not_created
    | Some crew =>
        print (lit "Crew created successfully") ;;;
        result <- Crew_kickoff W crew ;;
        print (lit "Crew execution completed") ;;;
        ret (article_written result)
    end.

(** The rewriting of the error text in the [except] of [generate_news]. *)
Definition friendly_error (error_msg : pystr) : pystr :=
  if str_in (lit "API") (rt_upper W error_msg)
  then api_message
  else if str_in (lit "MODEL") (rt_upper W error_msg)
  then model_message
  else lit "An error occurred: " ++ error_msg.

(** The response of the [except] branch, for the rewritten text. *)
Definition news_failed (error_msg : pystr) : Response := {|
  resp_json := jsonify [
    (lit "success", PBool false);
    (lit "error", PStr error_msg)
  ];
  resp_status := 500
|}.

(** The [except Exception as e] of [generate_news]. *)
Definition generate_news_except (e : exn) : M Response :=
  print (lit "Error in generate_news: " ++ exn_str e) ;;;
  print_exc e ;;;
  let error_msg := exn_str e in
  let error_msg := friendly_error error_msg in
  ret (news_failed error_msg).

Definition generate_news (req : Request) : M Response :=
  try_except (generate_news_try req) generate_news_except.

Definition health : M Response :=
  ret {|
    resp_json := jsonify [(lit "status", PStr (lit "healthy"))];
    resp_status := 200
  |}.

(** What [test_api] returns: [jsonify] of a status and a message, with
    no status code of its own. *)
Definition probe_report (status message : pystr) : Response := {|
  resp_json := jsonify [
    (lit "status", PStr status);
    (lit "message", PStr message)
  ];
  resp_status := 200
|}.

Definition test_agent : Agent := {|
  role := lit "Test Agent";
  goal := lit "Test the API";
  backstory := lit "Testing agent.";
  agent_verbose := false;
  allow_delegation := None;
  agent_llm := llm G
|}.

Definition test_api : M Response :=
  try_except
    (if negb (key_truthy (api_key G))
     then ret (probe_report (lit "error") (lit "API key not found"))
     else
       test_agent <- Agent_new W test_agent ;;
       ret (probe_report (lit "success") (lit "API is working")))
    (fun e => ret (probe_report (lit "error") (exn_str e))).

(** The routing table built by the [@app.route] decorators, for the
    routes above. *)
Definition dispatch (r : route) (req : Request) : M Response :=
  match r with
  | POST_generate_news => generate_news req
  | GET_health => health
  | GET_test_api => test_api
  end.
End Handlers.

End AppV2.

(** ** [test_setup.py]: the script that checks the installation *)

Module TestSetup.

Definition key_truthy (k : option pystr) : bool :=
  match k with
  | Some s => negb (str_empty s)
  | None => false
  end.

Section Script.
Variable W : World.

(** The body of the [try] of [test_crewai_setup]. *)
Definition test_crewai_setup_try (api_key : option pystr) : M bool :=
  llm <- LLM_new W {|
    llm_model := lit "gemini/gemini-1.5-flash";
    llm_api_key := api_key;
    llm_temperature := 7 # 10
  |} ;;
  print ([9989%N] ++ lit " LLM initialized successfully") ;;;
  test_agent <- Agent_new W {|
    role := lit "Test Writer";
    goal := lit "Write a simple test response";
    backstory := lit "You are a test agent.";
    agent_verbose := true;
    allow_delegation := None;
    agent_llm := LLMObject llm
  |} ;;
  print ([9989%N] ++ lit " Agent created successfully") ;;;
  test_task <- Task_new W {|
    description := lit "Write a short paragraph about artificial intelligence.";
    agent := Some test_agent;
    expected_output := lit "A brief paragraph about AI."
  |} ;;
  print ([9989%N] ++ lit " Task created successfully") ;;;
  crew <- Crew_new W {|
    agents := [Some test_agent];
    tasks := [test_task];
    process := sequential;
    crew_verbose := true
  |} ;;
  print ([9989%N] ++ lit " Crew created successfully") ;;;
  print ([128640%N] ++ lit " Starting crew execution...") ;;;
  result <- Crew_kickoff W crew ;;
  print ([9989%N] ++ lit " Crew executed successfully!") ;;;
  print (lit "Result: " ++ result_str result) ;;;
  ret true.

(** [test_crewai_setup()], with [getenv = os.getenv(GEMINI_API_KEY)]. *)
Definition test_crewai_setup (getenv : option pystr) : M bool :=
  let api_key := getenv in
  if negb (key_truthy api_key)
  then
    print ([10060%N] ++ lit " GEMINI_API_KEY not found!") ;;;
    ret false
  else
    print ([9989%N] ++ lit " API key found") ;;;
    try_except (test_crewai_setup_try api_key)
      (fun e =>
         print ([10060%N] ++ lit " Error: " ++ exn_str e) ;;;
         print_exc e ;;;
         ret false).

(** The statements under [if __name__ == __main__]. *)
Definition main (getenv : option pystr) : M unit :=
  print (lit "Testing CrewAI setup...") ;;;
  success <- test_crewai_setup getenv ;;
  if (success : bool)
  then print ([NL; 127881%N]
              ++ lit " All tests passed! Your setup is working correctly.")
  else print ([NL; 128165%N]
              ++ lit " Tests failed. Please check the error messages above.").
End Script.

End TestSetup.

(** ** Properties of computations, and concrete worlds *)

(** Every event [m] emits satisfies [P]. *)
Definition emits_only {A} (P : event -> bool) (m : M A) : Prop :=
  forall h r evs ev, m h = (r, evs) -> In ev evs -> P ev = true.

(** No [try] inside [m] swallows an exception: whenever a library call of [m]
    raised, [m] raises that very exception. *)
Definition propagates {A} (m : M A) : Prop :=
  forall h r evs ev e,
    m h = (r, evs) -> In ev evs -> raised_by ev = Some e -> r = inl e.

Definition not_model_call (ev : event) : bool := negb (is_model_call ev).

(** The library accepts every [Task] and every [Crew] it is asked to build. *)
Definition accepting (W : World) : Prop :=
  (forall h t, lib_Task W h t = None) /\ (forall h c, lib_Crew W h c = None).

(** The primary input a request carries under [key], if its body is a JSON
    object that has the key. *)
Definition primary_input (key : string) (req : Request) : option pyval :=
  match get_json req with
  | inr (PDict m) => m !! lit key
  | _ => None
  end.

(** The primary input is missing or empty. *)
Definition no_primary_input (key : string) (req : Request) : Prop :=
  match primary_input key req with
  | Some v => truthy v = false
  | None => True
  end.

(** A world in which every constructor succeeds and the executor's outcome
    is [out]; [str] and [upper] are the ASCII ones. *)
Definition calm_world (out : exn + kickoff_result) : World := {|
  rt_str := fun _ => lit "<object>";
  rt_upper := ascii_upper;
  lib_LLM := fun _ _ => None;
  lib_Agent := fun _ _ => None;
  lib_Task := fun _ _ => None;
  lib_Crew := fun _ _ => None;
  lib_kickoff := fun _ _ => out
|}.

(** A world in which the [Task] constructor raises [e]. *)
Definition task_rejecting_world (e : exn) : World := {|
  rt_str := fun _ => lit "<object>";
  rt_upper := ascii_upper;
  lib_LLM := fun _ _ => None;
  lib_Agent := fun _ _ => None;
  lib_Task := fun _ _ => Some e;
  lib_Crew := fun _ _ => None;
  lib_kickoff := fun _ _ => inr (StrResult (lit "unused"))
|}.

(** A world in which the [Agent] constructor raises [e]. *)
Definition agent_rejecting_world (e : exn) : World := {|
  rt_str := fun _ => lit "<object>";
  rt_upper := ascii_upper;
  lib_LLM := fun _ _ => None;
  lib_Agent := fun _ _ => Some e;
  lib_Task := fun _ _ => None;
  lib_Crew := fun _ _ => None;
  lib_kickoff := fun _ _ => inr (StrResult (lit "unused"))
|}.

Definition sample_key : option pystr := Some (lit "k-123").

Definition sample_llm : LLM := {|
  llm_model := lit "gemini/gemini-1.5-flash";
  llm_api_key := sample_key;
  llm_temperature := 7 # 10
|}.

Definition sample_agent (name : string) : Agent := {|
  role := lit name;
  goal := lit "goal";
  backstory := lit "backstory";
  agent_verbose := false;
  allow_delegation := None;
  agent_llm := LLMObject sample_llm
|}.

Definition sample_globals : App.Globals := {|
  App.api_key := sample_key;
  App.llm := sample_llm;
  App.flowchart_agent := sample_agent "Flowchart Generator";
  App.choice_provider_agent := sample_agent "Technology Choice Provider";
  App.architecture_agent := sample_agent "System Architecture Designer";
  App.code_generator_agent := sample_agent "Code Generator";
  App.design_enhancer_agent := sample_agent "Design & Animation Enhancer";
  App.error_fixer_agent := sample_agent "Code Error Fixer";
  App.testing_agent := sample_agent "Code Testing Specialist";
  App.delivery_agent := sample_agent "Code Delivery Specialist"
|}.

Definition sample_globals_v2 : AppV2.Globals := {|
  AppV2.api_key := sample_key;
  AppV2.llm := LLMObject sample_llm;
  AppV2.journalist_agent := Some (sample_agent "Investigative Journalist");
  AppV2.news_writer_agent := Some (sample_agent "News Writer");
  AppV2.sentence_cleaner_agent := Some (sample_agent "Content Editor");
  AppV2.merger_agent := Some (sample_agent "Final Editor")
|}.

(** The module-level names of [app_v2.py] after [create_agents] failed. *)
Definition agentless_globals_v2 : AppV2.Globals := {|
  AppV2.api_key := sample_key;
  AppV2.llm := LLMObject sample_llm;
  AppV2.journalist_agent := None;
  AppV2.news_writer_agent := None;
  AppV2.sentence_cleaner_agent := None;
  AppV2.merger_agent := None
|}.

(** A request whose JSON body is the object [fields]. *)
Definition json_request (fields : list (pystr * pyval)) : Request :=
  {| get_json := inr (jsonify fields) |}.

(** [POST /generate_code] with a description and requirements. *)
Definition todo_request : Request :=
  json_request [
    (lit "project_description", PStr (lit "a todo list"));
    (lit "requirements", PStr (lit "dark mode"))
  ].

(** [POST /generate_news] with a topic. *)
Definition tides_request : Request :=
  json_request [(lit "topic", PStr (lit "tides"))].

(** A request whose body is the JSON value [null]. *)
Definition null_request : Request := {| get_json := inr PNone |}.

(** The string ["a b\nc"]. *)
Definition a_b_newline_c : pystr := lit "a b" ++ [NL] ++ lit "c".

(** When [m] raises, the exception came out of a constructor call. *)
Definition raises_by_construction {A} (m : M A) : Prop :=
  forall h e evs,
    m h = (inl e, evs) ->
    exists ev, In ev evs /\ is_construction ev = true /\ raised_by ev = Some e.

(** Every value [m] returns satisfies [Q]. *)
Definition returns_only {A} (Q : A -> Prop) (m : M A) : Prop :=
  forall h a evs, m h = (inr a, evs) -> Q a.

(** ** The runs of the two handlers

    One constructor per path through the handler, with the response and the
    events of that path.  [code_generation_run] and [news_run] below are
    stated on their own and proved to describe [App.generate_code] and
    [AppV2.generate_news]. *)

Definition is_dict (v : pyval) : bool :=
  match v with
  | PDict _ => true
  | _ => false
  end.

Section CodeRuns.
Variables (W : World) (G : App.Globals) (req : Request) (h : list event).

Let field_of (m : gmap (list N) pyval) (key : string) : pyval :=
  dict_get m key (PStr (lit "")).

Inductive code_generation_run : (exn + Response) * list event -> Prop :=
| code_body_unreadable e :
    get_json req = inl e ->
    code_generation_run
      (inr (App.generation_failed e),
       [EvPrint (App.error_message e); EvPrintExc e])
| code_body_not_object v :
    get_json req = inr v -> is_dict v = false ->
    code_generation_run
      (inr (App.generation_failed (AttributeError v (lit "get"))),
       [EvPrint (App.error_message (AttributeError v (lit "get")));
        EvPrintExc (AttributeError v (lit "get"))])
| code_rejected m :
    get_json req = inr (PDict m) ->
    truthy (field_of m "project_description") = false ->
    code_generation_run (inr App.description_required, [])
| code_not_built m e evs :
    get_json req = inr (PDict m) ->
    truthy (field_of m "project_description") = true ->
    App.create_code_generation_crew W G
      (field_of m "project_description") (field_of m "requirements")
      (h ++ [EvPrint (App.starting_message W (field_of m "project_description"))])
    = (inl e, evs) ->
    code_generation_run
      (inr (App.generation_failed e),
       EvPrint (App.starting_message W (field_of m "project_description"))
       :: evs ++ [EvPrint (App.error_message e); EvPrintExc e])
| code_not_run m crew evs e :
    get_json req = inr (PDict m) ->
    truthy (field_of m "project_description") = true ->
    App.create_code_generation_crew W G
      (field_of m "project_description") (field_of m "requirements")
      (h ++ [EvPrint (App.starting_message W (field_of m "project_description"))])
    = (inr crew, evs) ->
    code_generation_run
      (inr (App.generation_failed e),
       EvPrint (App.starting_message W (field_of m "project_description"))
       :: evs ++ [EvPrint App.crew_created_message; EvKickoff crew (inl e);
                  EvPrint (App.error_message e); EvPrintExc e])
| code_done m crew evs result :
    get_json req = inr (PDict m) ->
    truthy (field_of m "project_description") = true ->
    App.create_code_generation_crew W G
      (field_of m "project_description") (field_of m "requirements")
      (h ++ [EvPrint (App.starting_message W (field_of m "project_description"))])
    = (inr crew, evs) ->
    code_generation_run
      (inr (App.code_generated
              (field_of m "project_description") (field_of m "requirements") result),
       EvPrint (App.starting_message W (field_of m "project_description"))
       :: evs ++ [EvPrint App.crew_created_message; EvKickoff crew (inr result);
                  EvPrint App.completed_message]).
End CodeRuns.

Section NewsRuns.
Variables (W : World) (G : AppV2.Globals) (req : Request) (h : list event).

Let topic_of (m : gmap (list N) pyval) : pyval :=
  dict_get m "topic" (PStr (lit "")).

Let agents_ready : bool :=
  AppV2.all [AppV2.agent_truthy (AppV2.journalist_agent G);
             AppV2.agent_truthy (AppV2.news_writer_agent G);
             AppV2.agent_truthy (AppV2.sentence_cleaner_agent G);
             AppV2.agent_truthy (AppV2.merger_agent G)].

Let caught (e : exn) : list event :=
  [EvPrint (lit "Error in generate_news: " ++ exn_str e); EvPrintExc e].

Inductive news_run : (exn + Response) * list event -> Prop :=
| news_body_unreadable e :
    get_json req = inl e ->
    news_run (inr (AppV2.news_failed (AppV2.friendly_error W (exn_str e))), caught e)
| news_body_not_object v :
    get_json req = inr v -> is_dict v = false ->
    news_run
      (inr (AppV2.news_failed
              (AppV2.friendly_error W (exn_str (AttributeError v (lit "get"))))),
       caught (AttributeError v (lit "get")))
| news_rejected m :
    get_json req = inr (PDict m) ->
    truthy (topic_of m) = false ->
    news_run (inr AppV2.topic_required, [])
| news_without_agents m :
    get_json req = inr (PDict m) ->
    truthy (topic_of m) = true ->
    agents_ready = false ->
    news_run (inr AppV2.agents_not_initialized, [])
| news_not_built m evs :
    get_json req = inr (PDict m) ->
    truthy (topic_of m) = true ->
    agents_ready = true ->
    AppV2.create_news_crew W G (topic_of m)
      (h ++ [EvPrint (AppV2.generating_message W (topic_of m))]) = (inr None, evs) ->
    news_run
      (inr AppV2.crew_not_created,
       EvPrint (AppV2.generating_message W (topic_of m)) :: evs)
| news_not_run m crew evs e :
    get_json req = inr (PDict m) ->
    truthy (topic_of m) = true ->
    agents_ready = true ->
    AppV2.create_news_crew W G (topic_of m)
      (h ++ [EvPrint (AppV2.generating_message W (topic_of m))])
    = (inr (Some crew), evs) ->
    news_run
      (inr (AppV2.news_failed (AppV2.friendly_error W (exn_str e))),
       EvPrint (AppV2.generating_message W (topic_of m))
       :: evs ++ [EvPrint (lit "Crew created successfully"); EvKickoff crew (inl e)]
       ++ caught e)
| news_done m crew evs result :
    get_json req = inr (PDict m) ->
    truthy (topic_of m) = true ->
    agents_ready = true ->
    AppV2.create_news_crew W G (topic_of m)
      (h ++ [EvPrint (AppV2.generating_message W (topic_of m))])
    = (inr (Some crew), evs) ->
    news_run
      (inr (AppV2.article_written result),
       EvPrint (AppV2.generating_message W (topic_of m))
       :: evs ++ [EvPrint (lit "Crew created successfully");
                  EvKickoff crew (inr result);
                  EvPrint (lit "Crew execution completed")]).
End NewsRuns.

(** The response of every [except] branch: [success] false and the text. *)
Definition failure_response (msg : pystr) : Response := {|
  resp_json := jsonify [(lit "success", PBool false); (lit "error", PStr msg)];
  resp_status := 500
|}.

(** The pipeline the code-generation builder returns in a world [W], or an
    empty one if it raised. *)
Definition built_crew (W : World) (G : App.Globals) (pd reqs : pyval) : Crew :=
  match fst (App.create_code_generation_crew W G pd reqs []) with
  | inr c => c
  | inl _ => mkCrew [] [] sequential false
  end.

(** The same for the news builder. *)
Definition built_news_crew (W : World) (G : AppV2.Globals) (topic : pyval) : Crew :=
  match fst (AppV2.create_news_crew W G topic []) with
  | inr (Some c) => c
  | _ => mkCrew [] [] sequential false
  end.

(** Exceptions and requests for the concrete runs. *)
Definition boom : exn := Exn (lit "ValidationError") (lit "boom").

(** The first [Task] each builder asks for, in the sample requests. *)
Definition first_task : Task :=
  match tasks (built_crew (calm_world (inl boom)) sample_globals
                 (PStr (lit "a todo list")) (PStr (lit "dark mode"))) with
  | t :: _ => t
  | [] => mkTask [] None []
  end.

Definition first_news_task : Task :=
  match tasks (built_news_crew (calm_world (inl boom)) sample_globals_v2
                 (PStr (lit "tides"))) with
  | t :: _ => t
  | [] => mkTask [] None []
  end.

Definition quota_exceeded : exn :=
  Exn (lit "RuntimeError") (lit "quota exceeded at stage 3").

Definition bad_key : exn := Exn (lit "AuthError") (lit "Invalid api key for model gemini").

(** A request whose body is the empty JSON object. *)
Definition empty_request : Request := json_request [].


(** ** Vocabulary for the properties of whole runs *)

(** A call into the library (anything but console output). *)
Definition is_library_call (ev : event) : bool :=
  match ev with
  | EvPrint _ | EvPrintExc _ => false
  | _ => true
  end.

(** An [LLM] or an [Agent] is being constructed. *)
Definition is_agent_construction (ev : event) : bool :=
  match ev with
  | EvLLM _ _ | EvAgent _ _ => true
  | _ => false
  end.

(** The call the event records did not raise. *)
Definition quiet (ev : event) : Prop := raised_by ev = None.

(** The number of calls of the executor among [evs]. *)
Definition model_calls (evs : list event) : nat :=
  length (List.filter is_model_call evs).

(** [m] does nothing after a library call raised: when it raises, the last
    event is the call that raised and all earlier calls returned; when it
    returns, every call returned. *)
Definition stops_at_failure {A} (m : M A) : Prop :=
  forall h r evs,
    m h = (r, evs) ->
    match r with
    | inr _ => Forall quiet evs
    | inl e => exists pre ev,
                 evs = pre ++ [ev] /\ Forall quiet pre /\ raised_by ev = Some e
    end.

(** The library keeps no state: what a call does is the same after every
    history. *)
Definition stateless (W : World) : Prop :=
  (forall h h' x, lib_LLM W h x = lib_LLM W h' x)
  /\ (forall h h' x, lib_Agent W h x = lib_Agent W h' x)
  /\ (forall h h' x, lib_Task W h x = lib_Task W h' x)
  /\ (forall h h' x, lib_Crew W h x = lib_Crew W h' x)
  /\ (forall h h' x, lib_kickoff W h x = lib_kickoff W h' x).

(** [m] does the same after every history. *)
Definition history_free {A} (m : M A) : Prop := forall h h', m h = m h'.

(** The body of the request is a JSON object whose field [key] is absent or
    falsy. *)
Definition rejected_input (key : string) (req : Request) : Prop :=
  exists m, get_json req = inr (PDict m)
            /\ truthy (dict_get m key (PStr (lit ""))) = false.

(** The executor was called and returned. *)
Definition executor_returned (evs : list event) : Prop :=
  exists crew result, In (EvKickoff crew (inr result)) evs.

(** The events of a successful construction of the stages [ts] and of the
    crew [c]. *)
Definition construction_events (c : Crew) : list event :=
  map (fun t => EvTask t None) (tasks c) ++ [EvCrew c None].

(** A request whose body is a JSON array. *)
Definition array_request : Request := {| get_json := inr (PList [PInt 1]) |}.

(** The executor's answer in the sample runs. *)
Definition sample_result : kickoff_result := ObjResult true (lit "print(1)").
(** ** The monad *)

Lemma emits_only_ret {A} P (a : A) : emits_only P (ret a).
Proof. intros h r evs ev H Hin. inversion H; subst. destruct Hin. Qed.

Lemma emits_only_bind {A B} P (m : M A) (f : A -> M B) :
  emits_only P m -> (forall a, emits_only P (f a)) -> emits_only P (bind m f).
Proof.
  intros Hm Hf h r evs ev Hrun Hin. unfold bind in Hrun.
  destruct (m h) as [[e | a] evs1] eqn:Em.
  - inversion Hrun; subst. exact (Hm _ _ _ _ Em Hin).
  - destruct (f a (h ++ evs1)) as [r2 evs2] eqn:Ef.
    inversion Hrun; subst. apply in_app_or in Hin as [Hin | Hin].
    + exact (Hm _ _ _ _ Em Hin).
    + exact (Hf _ _ _ _ _ Ef Hin).
Qed.

Lemma emits_only_try_except {A} P (m : M A) (k : exn -> M A) :
  emits_only P m -> (forall e, emits_only P (k e)) -> emits_only P (try_except m k).
Proof.
  intros Hm Hk h r evs ev Hrun Hin. unfold try_except in Hrun.
  destruct (m h) as [[e | a] evs1] eqn:Em.
  - destruct (k e (h ++ evs1)) as [r2 evs2] eqn:Ek.
    inversion Hrun; subst. apply in_app_or in Hin as [Hin | Hin].
    + exact (Hm _ _ _ _ Em Hin).
    + exact (Hk _ _ _ _ _ Ek Hin).
  - inversion Hrun; subst. exact (Hm _ _ _ _ Em Hin).
Qed.

Lemma emits_only_print P s : P (EvPrint s) = true -> emits_only P (print s).
Proof.
  intros HP h r evs ev H Hin. inversion H; subst.
  destruct Hin as [<- | []]. exact HP.
Qed.

Lemma emits_only_Task_new W P t :
  (forall o, P (EvTask t o) = true) -> emits_only P (Task_new W t).
Proof.
  intros HP h r evs ev H Hin. unfold Task_new in H.
  destruct (lib_Task W h t); inversion H; subst;
    destruct Hin as [<- | []]; apply HP.
Qed.

Lemma emits_only_Crew_new W P c :
  (forall o, P (EvCrew c o) = true) -> emits_only P (Crew_new W c).
Proof.
  intros HP h r evs ev H Hin. unfold Crew_new in H.
  destruct (lib_Crew W h c); inversion H; subst;
    destruct Hin as [<- | []]; apply HP.
Qed.

Lemma propagates_ret {A} (a : A) : propagates (ret a).
Proof. intros h r evs ev e H Hin. inversion H; subst. destruct Hin. Qed.

Lemma propagates_bind {A B} (m : M A) (f : A -> M B) :
  propagates m -> (forall a, propagates (f a)) -> propagates (bind m f).
Proof.
  intros Hm Hf h r evs ev e Hrun Hin Hev. unfold bind in Hrun.
  destruct (m h) as [[e1 | a] evs1] eqn:Em.
  - inversion Hrun; subst.
    pose proof (Hm _ _ _ _ _ Em Hin Hev) as Heq. congruence.
  - destruct (f a (h ++ evs1)) as [r2 evs2] eqn:Ef.
    inversion Hrun; subst. apply in_app_or in Hin as [Hin | Hin].
    + discriminate (Hm _ _ _ _ _ Em Hin Hev).
    + exact (Hf _ _ _ _ _ _ Ef Hin Hev).
Qed.

Lemma propagates_Task_new W t : propagates (Task_new W t).
Proof.
  intros h r evs ev e H Hin Hev. unfold Task_new in H.
  destruct (lib_Task W h t); inversion H; subst;
    destruct Hin as [<- | []]; simpl in Hev; congruence.
Qed.

Lemma propagates_Crew_new W c : propagates (Crew_new W c).
Proof.
  intros h r evs ev e H Hin Hev. unfold Crew_new in H.
  destruct (lib_Crew W h c); inversion H; subst;
    destruct Hin as [<- | []]; simpl in Hev; congruence.
Qed.

(** Under an accepting library the two constructors return their argument. *)
Lemma Task_new_accepted W t h :
  accepting W -> Task_new W t h = (inr t, [EvTask t None]).
Proof. intros [HT _]. unfold Task_new. now rewrite HT. Qed.

Lemma Crew_new_accepted W c h :
  accepting W -> Crew_new W c h = (inr c, [EvCrew c None]).
Proof. intros [_ HC]. unfold Crew_new. now rewrite HC. Qed.

(** A constructor that returns, returns the object of its arguments. *)
Lemma Task_new_returns W t h t' evs :
  Task_new W t h = (inr t', evs) -> t' = t.
Proof. unfold Task_new. destruct (lib_Task W h t); congruence. Qed.

Lemma Crew_new_returns W c h c' evs :
  Crew_new W c h = (inr c', evs) -> c' = c.
Proof. unfold Crew_new. destruct (lib_Crew W h c); congruence. Qed.

Lemma raises_by_construction_ret {A} (a : A) : raises_by_construction (ret a).
Proof. intros h e evs H. discriminate H. Qed.

Lemma raises_by_construction_bind {A B} (m : M A) (f : A -> M B) :
  raises_by_construction m -> (forall a, raises_by_construction (f a)) ->
  raises_by_construction (bind m f).
Proof.
  intros Hm Hf h e evs Hrun. unfold bind in Hrun.
  destruct (m h) as [[e1 | a] evs1] eqn:Em.
  - injection Hrun as <- <-. exact (Hm _ _ _ Em).
  - destruct (f a (h ++ evs1)) as [r2 evs2] eqn:Ef.
    injection Hrun as -> <-.
    destruct (Hf _ _ _ _ Ef) as (ev & Hin & Hc & Hr).
    exists ev. split; [ apply in_or_app; now right | now split ].
Qed.

Lemma raises_by_construction_Task_new W t : raises_by_construction (Task_new W t).
Proof.
  intros h e evs H. unfold Task_new in H.
  destruct (lib_Task W h t) as [e1 | ]; [ | discriminate H ].
  injection H as <- <-. exists (EvTask t (Some e1)). simpl. auto.
Qed.

Lemma raises_by_construction_Crew_new W c : raises_by_construction (Crew_new W c).
Proof.
  intros h e evs H. unfold Crew_new in H.
  destruct (lib_Crew W h c) as [e1 | ]; [ | discriminate H ].
  injection H as <- <-. exists (EvCrew c (Some e1)). simpl. auto.
Qed.

Lemma returns_only_ret {A} (Q : A -> Prop) (a : A) : Q a -> returns_only Q (ret a).
Proof. intros HQ h a' evs H. injection H as <- _. exact HQ. Qed.

Lemma returns_only_bind {A B} (Q : B -> Prop) (m : M A) (f : A -> M B) :
  (forall a, returns_only Q (f a)) -> returns_only Q (bind m f).
Proof.
  intros Hf h b evs Hrun. unfold bind in Hrun.
  destruct (m h) as [[e1 | a] evs1] eqn:Em; [ discriminate Hrun | ].
  destruct (f a (h ++ evs1)) as [r2 evs2] eqn:Ef.
  injection Hrun as -> <-. exact (Hf _ _ _ _ Ef).
Qed.

(** ** The pipeline builders *)

(** Run one constructor call of a builder whose run is described by [H]:
    either the call raised, and the run cannot have returned, or it
    returned its argument. *)
Ltac step_constructor H :=
  lazymatch type of H with
  | context [Task_new ?W ?t ?h] =>
      let E := fresh "E" in
      let t' := fresh "t" in
      destruct (Task_new W t h) as [[? | t'] ?] eqn:E;
      [ try discriminate H
      | apply Task_new_returns in E; subst t'; cbv beta iota in H ]
  | context [Crew_new ?W ?c ?h] =>
      let E := fresh "E" in
      let c' := fresh "c" in
      destruct (Crew_new W c h) as [[? | c'] ?] eqn:E;
      [ try discriminate H
      | apply Crew_new_returns in E; subst c'; cbv beta iota in H ]
  end.

Lemma builder_never_calls_model W G pd reqs :
  emits_only not_model_call (App.create_code_generation_crew W G pd reqs).
Proof.
  unfold App.create_code_generation_crew.
  repeat (apply emits_only_bind;
          [ first [ apply emits_only_Task_new | apply emits_only_Crew_new ];
            reflexivity
          | intros ]).
  apply emits_only_ret.
Qed.

Lemma builder_propagates W G pd reqs :
  propagates (App.create_code_generation_crew W G pd reqs).
Proof.
  unfold App.create_code_generation_crew.
  repeat (apply propagates_bind;
          [ first [ apply propagates_Task_new | apply propagates_Crew_new ]
          | intros ]).
  apply propagates_ret.
Qed.

(** The stages of a pipeline the code-generation builder returned. *)
Lemma builder_stages W G pd reqs h c evs :
  App.create_code_generation_crew W G pd reqs h = (inr c, evs) ->
  exists d1 d2 d3 d4 d5 d6 d7 d8 o1 o2 o3 o4 o5 o6 o7 o8,
    (forall h' c' evs',
        App.create_code_generation_crew W G pd reqs h' = (inr c', evs') -> c' = c) /\
    tasks c = [
      mkTask d1 (Some (App.flowchart_agent G)) o1;
      mkTask d2 (Some (App.choice_provider_agent G)) o2;
      mkTask d3 (Some (App.architecture_agent G)) o3;
      mkTask d4 (Some (App.code_generator_agent G)) o4;
      mkTask d5 (Some (App.design_enhancer_agent G)) o5;
      mkTask d6 (Some (App.error_fixer_agent G)) o6;
      mkTask d7 (Some (App.testing_agent G)) o7;
      mkTask d8 (Some (App.delivery_agent G)) o8
    ].
Proof.
  intros H. unfold App.create_code_generation_crew, bind, ret in H.
  do 8 step_constructor H. step_constructor H.
  injection H as <- _.
  do 16 eexists. split; [ | reflexivity ].
  intros h' c' evs' H'.
  unfold App.create_code_generation_crew, bind, ret in H'.
  do 8 step_constructor H'. step_constructor H'.
  injection H' as <- _. reflexivity.
Qed.

Lemma builder_returns W G pd reqs h :
  accepting W ->
  exists c evs, App.create_code_generation_crew W G pd reqs h = (inr c, evs).
Proof.
  intros HW. unfold App.create_code_generation_crew, bind, ret.
  repeat rewrite (Task_new_accepted W _ _ HW).
  rewrite (Crew_new_accepted W _ _ HW).
  eauto.
Qed.

Lemma news_try_never_calls_model W G topic :
  emits_only not_model_call (AppV2.create_news_crew_try W G topic).
Proof.
  unfold AppV2.create_news_crew_try.
  repeat (apply emits_only_bind;
          [ first [ apply emits_only_Task_new | apply emits_only_Crew_new ];
            reflexivity
          | intros ]).
  apply emits_only_ret.
Qed.

Lemma news_builder_never_calls_model W G topic :
  emits_only not_model_call (AppV2.create_news_crew W G topic).
Proof.
  unfold AppV2.create_news_crew.
  apply emits_only_try_except; [ apply news_try_never_calls_model | intros e ].
  apply emits_only_bind; [ now apply emits_only_print | intros; apply emits_only_ret ].
Qed.

Lemma news_try_propagates W G topic :
  propagates (AppV2.create_news_crew_try W G topic).
Proof.
  unfold AppV2.create_news_crew_try.
  repeat (apply propagates_bind;
          [ first [ apply propagates_Task_new | apply propagates_Crew_new ]
          | intros ]).
  apply propagates_ret.
Qed.

Lemma news_try_raises_by_construction W G topic :
  raises_by_construction (AppV2.create_news_crew_try W G topic).
Proof.
  unfold AppV2.create_news_crew_try.
  repeat (apply raises_by_construction_bind;
          [ first [ apply raises_by_construction_Task_new
                  | apply raises_by_construction_Crew_new ]
          | intros ]).
  apply raises_by_construction_ret.
Qed.

Lemma news_try_returns_crew W G topic :
  returns_only (fun oc => oc <> None) (AppV2.create_news_crew_try W G topic).
Proof.
  unfold AppV2.create_news_crew_try.
  repeat (apply returns_only_bind; intros).
  apply returns_only_ret. discriminate.
Qed.

(** [create_news_crew] catches what its constructors raise: it returns
    [None] exactly when one of them raised, and never raises itself. *)
Lemma news_builder_outcome W G topic h r evs :
  AppV2.create_news_crew W G topic h = (r, evs) ->
  exists oc,
    r = inr oc /\
    (forall ev e, In ev evs -> raised_by ev = Some e -> oc = None) /\
    (oc = None -> exists ev e, In ev evs /\ is_construction ev = true
                               /\ raised_by ev = Some e).
Proof.
  unfold AppV2.create_news_crew, try_except. intros H.
  destruct (AppV2.create_news_crew_try W G topic h) as [[e | oc] evs1] eqn:Etry.
  - cbv [bind print ret] in H. injection H as <- <-.
    exists None. split; [ reflexivity | split; [ reflexivity | intros _ ] ].
    destruct (news_try_raises_by_construction W G topic _ _ _ Etry)
      as (ev & Hin & Hc & Hr).
    exists ev, e. split; [ apply in_or_app; now left | now split ].
  - injection H as <- <-. exists oc. split; [ reflexivity | split ].
    + intros ev e Hin Hev.
      discriminate (news_try_propagates W G topic _ _ _ _ _ Etry Hin Hev).
    + intros ->. exfalso.
      exact (news_try_returns_crew W G topic _ _ _ Etry eq_refl).
Qed.

(** ** The handlers follow the runs *)

Lemma not_dict_get v key d :
  is_dict v = false -> py_get v key d = raise (AttributeError v (lit "get")).
Proof. destruct v; try reflexivity. discriminate. Qed.

Lemma generate_code_runs W G req h :
  code_generation_run W G req h (App.generate_code W G req h).
Proof.
  unfold App.generate_code, try_except, App.generate_code_try,
    App.generate_code_except, request_get_json.
  unfold bind at 1.
  destruct (get_json req) as [e | v] eqn:Ejson.
  - cbv [bind print print_exc ret]. cbn [app].
    now apply code_body_unreadable.
  - destruct (is_dict v) eqn:Edict.
    + destruct v; try discriminate Edict.
      cbn [py_get]. cbv [bind ret raise print print_exc Crew_kickoff]. cbn [app].
      destruct (truthy (dict_get m "project_description" (PStr (lit "")))) eqn:Et;
        cbn [negb].
      * rewrite ?app_nil_r.
        destruct (App.create_code_generation_crew W G _ _ _) as [[e | crew] evs] eqn:Eb.
        -- cbn [app]. rewrite <- ?app_assoc. cbn [app].
           now apply code_not_built with (m := m).
        -- rewrite <- ?app_assoc. cbn [app].
           match goal with
           | |- context [lib_kickoff W ?hk crew] =>
               destruct (lib_kickoff W hk crew) as [e | result]
           end.
           ++ cbn [app]. rewrite <- ?app_assoc. cbn [app].
              now apply code_not_run with (m := m).
           ++ cbn [app]. rewrite <- ?app_assoc. cbn [app].
              now apply code_done with (m := m).
      * now apply code_rejected with (m := m).
    + rewrite (not_dict_get v _ _ Edict).
      cbv [bind print print_exc ret raise]. cbn [app].
      now apply code_body_not_object.
Qed.

Lemma generate_news_runs W G req h :
  news_run W G req h (AppV2.generate_news W G req h).
Proof.
  unfold AppV2.generate_news, try_except, AppV2.generate_news_try,
    AppV2.generate_news_except, request_get_json.
  unfold bind at 1.
  destruct (get_json req) as [e | v] eqn:Ejson.
  - cbv [bind print print_exc ret]. cbn [app].
    now apply news_body_unreadable.
  - destruct (is_dict v) eqn:Edict.
    + destruct v; try discriminate Edict.
      cbn [py_get]. cbv [bind ret raise print print_exc Crew_kickoff]. cbn [app].
      destruct (truthy (dict_get m "topic" (PStr (lit "")))) eqn:Et; cbn [negb];
        [ | now apply news_rejected with (m := m) ].
      destruct (AppV2.all _) eqn:Eall; cbn [negb];
        [ | now apply news_without_agents with (m := m) ].
      rewrite ?app_nil_r.
      destruct (AppV2.create_news_crew W G _ _) as [r evs] eqn:Eb.
      destruct (news_builder_outcome _ _ _ _ _ _ Eb) as (oc & -> & _).
      destruct oc as [crew | ].
      * rewrite <- ?app_assoc. cbn [app].
        match goal with
        | |- context [lib_kickoff W ?hk crew] =>
            destruct (lib_kickoff W hk crew) as [e | result]
        end; cbn [app]; rewrite <- ?app_assoc; cbn [app].
        -- now apply news_not_run with (m := m).
        -- now apply news_done with (m := m).
      * cbn [app]. rewrite ?app_nil_r. now apply news_not_built with (m := m).
    + rewrite (not_dict_get v _ _ Edict).
      cbv [bind print print_exc ret raise]. cbn [app].
      now apply news_body_not_object.
Qed.

(** ** The modules at import *)

(** Without the key in the environment neither module loads: the import
    raises before any library call. *)
Lemma import_without_key_fails W h :
  App.import_module W None h
  = (inl (ValueError (lit "GEMINI_API_KEY not found in environment variables")), [])
  /\ AppV2.import_module W None h
     = (inl (ValueError (lit "GEMINI_API_KEY not found in environment variables")), []).
Proof. split; reflexivity. Qed.

(** When the [Agent] constructor raises at import, the news module still
    loads, with the four agents [None]. *)
Example news_import_without_agents :
  fst (AppV2.import_module (agent_rejecting_world boom) sample_key [])
  = inr agentless_globals_v2.
Proof. vm_compute. reflexivity. Qed.

(** ** The statistics of a successful generation *)

Lemma kickoff_not_in_builder W G pd reqs hb r evs crew out :
  App.create_code_generation_crew W G pd reqs hb = (r, evs) ->
  ~ In (EvKickoff crew out) evs.
Proof.
  intros Hb Hin.
  discriminate (builder_never_calls_model W G pd reqs _ _ _ _ Hb Hin).
Qed.

Lemma kickoff_not_in_news_builder W G topic hb r evs crew out :
  AppV2.create_news_crew W G topic hb = (r, evs) ->
  ~ In (EvKickoff crew out) evs.
Proof.
  intros Hb Hin.
  discriminate (news_builder_never_calls_model W G topic _ _ _ _ Hb Hin).
Qed.

(** Membership in the event lists of the runs, one list cell at a time. *)
Ltac split_membership H :=
  repeat first
    [ progress cbn [In app] in H
    | apply in_app_or in H
    | destruct H as [H | H]
    | discriminate H
    | contradiction H ].

Lemma word_count_of_string s :
  (if result_truthy (StrResult s)
   then PInt (Z.of_nat (length (str_split (result_str (StrResult s)))))
   else PInt 0) = PInt (Z.of_nat (length (str_split s))).
Proof. destruct s; reflexivity. Qed.

Lemma line_count_of_string s :
  (if result_truthy (StrResult s)
   then PInt (Z.of_nat (str_count NL (result_str (StrResult s))))
   else PInt 0) = PInt (Z.of_nat (str_count NL s)).
Proof. destruct s; reflexivity. Qed.

(** The fields of the success response. *)
Lemma code_generated_fields pd reqs result :
  let resp := App.code_generated pd reqs result in
  resp_status resp = 200 /\
  field "success" (resp_json resp) = Some (PBool true) /\
  field "generated_code" (resp_json resp) = Some (PStr (result_str result)) /\
  field "project_description" (resp_json resp) = Some pd /\
  field "requirements" (resp_json resp) = Some reqs /\
  exists stats,
    field "stats" (resp_json resp) = Some stats /\
    field "agents_used" stats = Some (PInt 8) /\
    field "processing_phases" stats = Some App.processing_phases /\
    field "word_count" stats =
      Some (if result_truthy result
            then PInt (Z.of_nat (length (str_split (result_str result))))
            else PInt 0) /\
    field "lines_of_code" stats =
      Some (if result_truthy result
            then PInt (Z.of_nat (str_count NL (result_str result)))
            else PInt 0).
Proof.
  cbv zeta. repeat split. eexists. repeat split.
Qed.

(** C1 (amended): when the executor returned the string [s], [generate_code]
    answers with the success response, whose [word_count] is
    [len(s.split())] and whose [lines_of_code] is the number of newline
    characters of [s]; the string ["a b\nc"] has 3 words and 1 newline. *)
Theorem word_and_line_counts_of_result :
  (forall W G req h crew s,
      In (EvKickoff crew (inr (StrResult s))) (snd (App.generate_code W G req h)) ->
      exists resp stats,
        fst (App.generate_code W G req h) = inr resp /\
        resp_status resp = 200 /\
        field "generated_code" (resp_json resp) = Some (PStr s) /\
        field "stats" (resp_json resp) = Some stats /\
        field "word_count" stats = Some (PInt (Z.of_nat (length (str_split s)))) /\
        field "lines_of_code" stats = Some (PInt (Z.of_nat (str_count NL s))))
  /\ length (str_split a_b_newline_c) = 3%nat
  /\ str_count NL a_b_newline_c = 1%nat.
Proof.
  split; [ | split; reflexivity ].
  intros W G req h crew s Hin.
  destruct (generate_code_runs W G req h) as
    [ e _ | v _ _ | m _ _ | m e evs _ _ Hb | m c evs e _ _ Hb | m c evs result _ _ Hb ];
    cbn [fst snd] in *.
  - split_membership Hin.
  - split_membership Hin.
  - split_membership Hin.
  - split_membership Hin. exfalso; eapply kickoff_not_in_builder; eassumption.
  - split_membership Hin. exfalso; eapply kickoff_not_in_builder; eassumption.
  - assert (result = StrResult s) as ->.
    { split_membership Hin; [ | congruence ].
      exfalso; eapply kickoff_not_in_builder; eassumption. }
    destruct (code_generated_fields
                (dict_get m "project_description" (PStr (lit "")))
                (dict_get m "requirements" (PStr (lit ""))) (StrResult s))
      as (Hst & _ & Hcode & _ & _ & stats & Hstats & _ & _ & Hw & Hl).
    eexists. exists stats. split; [ reflexivity | ].
    rewrite word_count_of_string in Hw. rewrite line_count_of_string in Hl.
    auto.
Qed.

(** Find an event in a concrete list of events. *)
Ltac find_event := vm_compute; repeat first [ left; reflexivity | right ].

Lemma word_and_line_counts_witness :
  exists resp stats,
    fst (App.generate_code (calm_world (inr (StrResult a_b_newline_c)))
           sample_globals todo_request []) = inr resp /\
    resp_status resp = 200 /\
    field "generated_code" (resp_json resp) = Some (PStr a_b_newline_c) /\
    field "stats" (resp_json resp) = Some stats /\
    field "word_count" stats = Some (PInt 3) /\
    field "lines_of_code" stats = Some (PInt 1).
Proof.
  refine (proj1 word_and_line_counts_of_result
            (calm_world (inr (StrResult a_b_newline_c))) sample_globals todo_request []
            (built_crew (calm_world (inr (StrResult a_b_newline_c))) sample_globals
               (PStr (lit "a todo list")) (PStr (lit "dark mode")))
            a_b_newline_c _).
  find_event.
Defined.

(** C1, the example of the claim: the result ["a b\nc"] has three words, not
    two, since the newline separates [b] from [c]; read with a backslash and
    an [n] in place of the newline it has two words and no newline. *)
Lemma a_b_newline_c_has_three_words :
  str_split a_b_newline_c = [lit "a"; lit "b"; lit "c"]
  /\ (exists stats,
        fst (App.generate_code (calm_world (inr (StrResult a_b_newline_c)))
               sample_globals todo_request [])
        = inr (App.code_generated (PStr (lit "a todo list")) (PStr (lit "dark mode"))
                 (StrResult a_b_newline_c)) /\
        field "stats"
          (resp_json (App.code_generated (PStr (lit "a todo list"))
                        (PStr (lit "dark mode")) (StrResult a_b_newline_c)))
        = Some stats /\
        field "word_count" stats = Some (PInt 3) /\
        field "lines_of_code" stats = Some (PInt 1))
  /\ length (str_split (lit "a b\nc")) = 2%nat
  /\ str_count NL (lit "a b\nc") = 0%nat.
Proof.
  split; [ reflexivity | split; [ | split; reflexivity ] ].
  eexists. split; [ vm_compute; reflexivity | ].
  split; [ reflexivity | split; reflexivity ].
Qed.

(** ** Failures of the executor *)

(** A failure response has the two fields [success] and [error], and no
    other. *)
Lemma failure_response_fields msg :
  resp_status (failure_response msg) = 500 /\
  field "success" (resp_json (failure_response msg)) = Some (PBool false) /\
  field "error" (resp_json (failure_response msg)) = Some (PStr msg) /\
  field "generated_code" (resp_json (failure_response msg)) = None /\
  field "article" (resp_json (failure_response msg)) = None /\
  exists m, resp_json (failure_response msg) = PDict m
            /\ dom m = {[ lit "success"; lit "error" ]}.
Proof.
  repeat split. eexists. split; [ reflexivity | ].
  cbn [list_to_map foldr fst snd uncurry].
  rewrite !dom_insert_L, dom_empty_L. set_solver.
Qed.

(** C4: when the executor raises [e], the handler of either application
    returns one response, the failure response: status 500, [success] false,
    [error] a string made from [str(e)], and no other field (no
    [generated_code], no [article]). *)
Theorem executor_failure_yields_failure_response :
  forall W G1 G2 req h crew e,
    (In (EvKickoff crew (inl e)) (snd (App.generate_code W G1 req h)) ->
     fst (App.generate_code W G1 req h)
     = inr (failure_response (lit "Failed to generate code: " ++ exn_str e)))
    /\ (In (EvKickoff crew (inl e)) (snd (AppV2.generate_news W G2 req h)) ->
        fst (AppV2.generate_news W G2 req h)
        = inr (failure_response (AppV2.friendly_error W (exn_str e))))
    /\ (forall msg,
          resp_status (failure_response msg) = 500 /\
          field "success" (resp_json (failure_response msg)) = Some (PBool false) /\
          field "error" (resp_json (failure_response msg)) = Some (PStr msg) /\
          field "generated_code" (resp_json (failure_response msg)) = None /\
          field "article" (resp_json (failure_response msg)) = None /\
          exists m, resp_json (failure_response msg) = PDict m
                    /\ dom m = {[ lit "success"; lit "error" ]}).
Proof.
  intros W G1 G2 req h crew e. split; [ | split; [ | apply failure_response_fields ] ].
  - intros Hin.
    destruct (generate_code_runs W G1 req h) as
      [ e0 _ | v _ _ | m _ _ | m e0 evs _ _ Hb | m c evs e0 _ _ Hb | m c evs result _ _ Hb ];
      cbn [fst snd] in *; split_membership Hin;
      try (exfalso; eapply kickoff_not_in_builder; eassumption).
    injection Hin as _ ->. reflexivity.
  - intros Hin.
    destruct (generate_news_runs W G2 req h) as
      [ e0 _ | v _ _ | m _ _ | m _ _ _ | m evs _ _ _ Hb
      | m c evs e0 _ _ _ Hb | m c evs result _ _ _ Hb ];
      cbn [fst snd] in *; split_membership Hin;
      try (exfalso; eapply kickoff_not_in_news_builder; eassumption).
    injection Hin as _ ->. reflexivity.
Qed.

Lemma executor_failure_witness :
  fst (App.generate_code (calm_world (inl quota_exceeded)) sample_globals todo_request [])
  = inr (failure_response (lit "Failed to generate code: quota exceeded at stage 3"))
  /\ fst (AppV2.generate_news (calm_world (inl quota_exceeded)) sample_globals_v2
            tides_request [])
     = inr (failure_response (lit "An error occurred: quota exceeded at stage 3")).
Proof.
  split.
  - refine (proj1 (executor_failure_yields_failure_response
                     (calm_world (inl quota_exceeded)) sample_globals sample_globals_v2
                     todo_request []
                     (built_crew (calm_world (inl quota_exceeded)) sample_globals
                        (PStr (lit "a todo list")) (PStr (lit "dark mode")))
                     quota_exceeded) _).
    find_event.
  - refine (proj1 (proj2 (executor_failure_yields_failure_response
                     (calm_world (inl quota_exceeded)) sample_globals sample_globals_v2
                     tides_request []
                     (built_news_crew (calm_world (inl quota_exceeded)) sample_globals_v2
                        (PStr (lit "tides")))
                     quota_exceeded)) _).
    find_event.
Defined.

(** ** The rewriting of error texts in the news application *)

(** C5: for every exception [e] the [try] of [generate_news] raises, the
    handler answers with the failure response whose text is the connectivity
    message if [str(e).upper()] contains [API], else the configuration
    message if it contains [MODEL], else [str(e)] after the prefix
    [An error occurred: ]. *)
Theorem news_error_text_is_rewritten :
  forall W G req h e,
    fst (AppV2.generate_news_try W G req h) = inl e ->
    exists msg,
      fst (AppV2.generate_news W G req h) = inr (failure_response msg) /\
      (str_in (lit "API") (rt_upper W (exn_str e)) = true ->
       msg = lit "API connection failed. Please check your internet connection and API key.") /\
      (str_in (lit "API") (rt_upper W (exn_str e)) = false ->
       str_in (lit "MODEL") (rt_upper W (exn_str e)) = true ->
       msg = lit "Model configuration error. Please try again.") /\
      (str_in (lit "API") (rt_upper W (exn_str e)) = false ->
       str_in (lit "MODEL") (rt_upper W (exn_str e)) = false ->
       msg = lit "An error occurred: " ++ exn_str e).
Proof.
  intros W G req h e Htry.
  exists (AppV2.friendly_error W (exn_str e)). split.
  - unfold AppV2.generate_news, try_except.
    destruct (AppV2.generate_news_try W G req h) as [r evs].
    cbn [fst] in Htry. subst r.
    cbv [AppV2.generate_news_except bind print print_exc ret]. reflexivity.
  - unfold AppV2.friendly_error.
    destruct (str_in (lit "API") _); destruct (str_in (lit "MODEL") _);
      repeat split; intros; try discriminate; reflexivity.
Qed.

Lemma news_error_text_witness :
  exists msg,
    fst (AppV2.generate_news (calm_world (inl bad_key)) sample_globals_v2 tides_request [])
    = inr (failure_response msg) /\
    (str_in (lit "API") (ascii_upper (exn_str bad_key)) = true ->
     msg = lit "API connection failed. Please check your internet connection and API key.") /\
    (str_in (lit "API") (ascii_upper (exn_str bad_key)) = false ->
     str_in (lit "MODEL") (ascii_upper (exn_str bad_key)) = true ->
     msg = lit "Model configuration error. Please try again.") /\
    (str_in (lit "API") (ascii_upper (exn_str bad_key)) = false ->
     str_in (lit "MODEL") (ascii_upper (exn_str bad_key)) = false ->
     msg = lit "An error occurred: " ++ exn_str bad_key).
Proof.
  refine (news_error_text_is_rewritten
            (calm_world (inl bad_key)) sample_globals_v2 tides_request [] bad_key _).
  vm_compute. reflexivity.
Defined.

(** The three texts, on concrete errors; the test is on substrings, so the
    word [rapid] counts as a mention of [API]. *)
Example friendly_error_examples :
  AppV2.friendly_error (calm_world (inl bad_key)) (lit "Invalid api key for model gemini")
  = AppV2.api_message
  /\ AppV2.friendly_error (calm_world (inl bad_key)) (lit "unknown model name")
     = AppV2.model_message
  /\ AppV2.friendly_error (calm_world (inl bad_key)) (lit "disk full")
     = lit "An error occurred: disk full"
  /\ AppV2.friendly_error (calm_world (inl bad_key)) (lit "a rapid stop")
     = AppV2.api_message.
Proof. repeat split; reflexivity. Qed.

(** ** Requests without primary input *)

Lemma no_primary_input_falsy key req m :
  get_json req = inr (PDict m) ->
  no_primary_input key req ->
  truthy (dict_get m key (PStr (lit ""))) = false.
Proof.
  unfold no_primary_input, primary_input, dict_get. intros ->.
  destruct (m !! lit key); [ trivial | reflexivity ].
Qed.

Lemma no_primary_input_truthy key req m :
  get_json req = inr (PDict m) ->
  no_primary_input key req ->
  truthy (dict_get m key (PStr (lit ""))) = true -> False.
Proof.
  intros Hj Hno Ht. rewrite (no_primary_input_falsy key req m Hj Hno) in Ht.
  discriminate Ht.
Qed.

(** One run of a handler cannot read two different bodies. *)
Ltac same_body :=
  match goal with
  | H1 : get_json ?req = _, H2 : get_json ?req = _ |- _ =>
      rewrite H1 in H2; first [ discriminate H2 | injection H2 as <- | injection H2 as -> ]
  end.

(** C2 (amended): a request whose JSON body is an object in which the
    primary input is absent or empty is answered with the validation failure
    (HTTP 400) and no event at all; and whatever the body, no [Task] and no
    [Crew] is constructed for a request without primary input. *)
Theorem missing_input_is_rejected_before_construction :
  forall W G1 G2 req h,
    (forall m, get_json req = inr (PDict m) ->
       no_primary_input "project_description" req ->
       App.generate_code W G1 req h = (inr App.description_required, []))
    /\ (forall m, get_json req = inr (PDict m) ->
          no_primary_input "topic" req ->
          AppV2.generate_news W G2 req h = (inr AppV2.topic_required, []))
    /\ (no_primary_input "project_description" req ->
        forall ev, In ev (snd (App.generate_code W G1 req h)) -> is_construction ev = false)
    /\ (no_primary_input "topic" req ->
        forall ev, In ev (snd (AppV2.generate_news W G2 req h)) -> is_construction ev = false)
    /\ resp_status App.description_required = 400
    /\ resp_status AppV2.topic_required = 400.
Proof.
  intros W G1 G2 req h. repeat split.
  - intros m Hj Hno.
    destruct (generate_code_runs W G1 req h); try same_body;
      try (exfalso; eapply no_primary_input_truthy; eassumption);
      try discriminate; reflexivity.
  - intros m Hj Hno.
    destruct (generate_news_runs W G2 req h); try same_body;
      try (exfalso; eapply no_primary_input_truthy; eassumption);
      try discriminate; reflexivity.
  - intros Hno ev Hin.
    destruct (generate_code_runs W G1 req h);
      try (exfalso; eapply no_primary_input_truthy; eassumption);
      cbn [snd] in Hin; split_membership Hin; subst ev; reflexivity.
  - intros Hno ev Hin.
    destruct (generate_news_runs W G2 req h);
      try (exfalso; eapply no_primary_input_truthy; eassumption);
      cbn [snd] in Hin; split_membership Hin; subst ev; reflexivity.
Qed.

(** On the empty object and on an empty topic the handlers answer 400; on
    the body [null] they construct nothing. *)
Lemma missing_input_witness :
  App.generate_code (calm_world (inr (StrResult (lit "unused")))) sample_globals
    empty_request [] = (inr App.description_required, [])
  /\ AppV2.generate_news (calm_world (inr (StrResult (lit "unused")))) sample_globals_v2
       (json_request [(lit "topic", PStr (lit ""))]) [] = (inr AppV2.topic_required, [])
  /\ (forall ev,
         In ev (snd (App.generate_code (calm_world (inr (StrResult (lit "unused"))))
                       sample_globals null_request [])) ->
         is_construction ev = false)
  /\ (forall ev,
         In ev (snd (AppV2.generate_news (calm_world (inr (StrResult (lit "unused"))))
                       sample_globals_v2 null_request [])) ->
         is_construction ev = false).
Proof.
  split; [ | split; [ | split ] ].
  - refine (proj1 (missing_input_is_rejected_before_construction
                     (calm_world (inr (StrResult (lit "unused"))))
                     sample_globals sample_globals_v2 empty_request []) ∅ _ _).
    + reflexivity.
    + vm_compute. exact I.
  - refine (proj1 (proj2 (missing_input_is_rejected_before_construction
                     (calm_world (inr (StrResult (lit "unused"))))
                     sample_globals sample_globals_v2
                     (json_request [(lit "topic", PStr (lit ""))]) []))
              (list_to_map [(lit "topic", PStr (lit ""))]) _ _).
    + reflexivity.
    + vm_compute. reflexivity.
  - refine (proj1 (proj2 (proj2 (missing_input_is_rejected_before_construction
                     (calm_world (inr (StrResult (lit "unused"))))
                     sample_globals sample_globals_v2 null_request []))) _).
    exact I.
  - refine (proj1 (proj2 (proj2 (proj2 (missing_input_is_rejected_before_construction
                     (calm_world (inr (StrResult (lit "unused"))))
                     sample_globals sample_globals_v2 null_request [])))) _).
    exact I.
Defined.

(** C2, as stated: a request whose body is the JSON value [null] carries no
    primary input, and both handlers answer it with status 500, through
    their [except] branch, not with the validation failure. *)
Lemma null_body_is_answered_with_500 :
  no_primary_input "project_description" null_request
  /\ no_primary_input "topic" null_request
  /\ fst (App.generate_code (calm_world (inr (StrResult (lit "unused"))))
            sample_globals null_request [])
     = inr (failure_response
              (lit "Failed to generate code: 'NoneType' object has no attribute 'get'"))
  /\ fst (AppV2.generate_news (calm_world (inr (StrResult (lit "unused"))))
            sample_globals_v2 null_request [])
     = inr (failure_response
              (lit "An error occurred: 'NoneType' object has no attribute 'get'"))
  /\ resp_status
       (failure_response
          (lit "Failed to generate code: 'NoneType' object has no attribute 'get'"))
     = 500.
Proof.
  split; [ exact I | split; [ exact I | ] ].
  split; [ vm_compute; reflexivity | split; [ vm_compute; reflexivity | reflexivity ] ].
Qed.

(** ** Failures of construction *)

Lemma news_builder_failed W G topic hb oc evs ev e :
  AppV2.create_news_crew W G topic hb = (inr oc, evs) ->
  In ev evs -> raised_by ev = Some e -> oc = None.
Proof.
  intros Hb Hin Hev.
  destruct (news_builder_outcome _ _ _ _ _ _ Hb) as (oc' & Heq & Hnone & _).
  injection Heq as ->. exact (Hnone ev e Hin Hev).
Qed.

(** C3 (amended): when the constructor of a [Task] or of the [Crew] raises
    [e] during a request, no call of the executor is made; [generate_code]
    returns status 500 with the error [Failed to generate code: ] followed by
    [str(e)], and [generate_news] returns status 500 with the fixed error
    [Failed to create crew. Please try again.] *)
Theorem construction_failure_aborts_before_model_call :
  forall W G1 G2 req h ev e,
    is_construction ev = true ->
    raised_by ev = Some e ->
    (In ev (snd (App.generate_code W G1 req h)) ->
     fst (App.generate_code W G1 req h)
     = inr (failure_response (lit "Failed to generate code: " ++ exn_str e))
     /\ forall ev', In ev' (snd (App.generate_code W G1 req h)) ->
                    is_model_call ev' = false)
    /\ (In ev (snd (AppV2.generate_news W G2 req h)) ->
        fst (AppV2.generate_news W G2 req h)
        = inr (failure_response (lit "Failed to create crew. Please try again."))
        /\ forall ev', In ev' (snd (AppV2.generate_news W G2 req h)) ->
                       is_model_call ev' = false).
Proof.
  intros W G1 G2 req h ev e Hc He. split; intros Hin.
  - destruct (generate_code_runs W G1 req h) as
      [ e0 _ | v _ _ | m _ _ | m e0 evs _ _ Hb | m c evs e0 _ _ Hb | m c evs result _ _ Hb ];
      cbn [fst snd] in *; split_membership Hin; subst; try discriminate Hc;
      try discriminate (builder_propagates _ _ _ _ _ _ _ _ _ Hb Hin He).
    pose proof (builder_propagates _ _ _ _ _ _ _ _ _ Hb Hin He) as Heq.
    injection Heq as ->. split; [ reflexivity | ].
    intros ev' Hin'. split_membership Hin'; subst; try reflexivity.
    pose proof (builder_never_calls_model _ _ _ _ _ _ _ _ Hb Hin') as Hn.
    unfold not_model_call in Hn. now destruct (is_model_call ev').
  - destruct (generate_news_runs W G2 req h) as
      [ e0 _ | v _ _ | m _ _ | m _ _ _ | m evs _ _ _ Hb
      | m c evs e0 _ _ _ Hb | m c evs result _ _ _ Hb ];
      cbn [fst snd] in *; split_membership Hin; subst; try discriminate Hc;
      try discriminate (news_builder_failed _ _ _ _ _ _ _ _ Hb Hin He).
    split; [ reflexivity | ].
    intros ev' Hin'. split_membership Hin'; subst; try reflexivity.
    pose proof (news_builder_never_calls_model _ _ _ _ _ _ _ Hb Hin') as Hn.
    unfold not_model_call in Hn. now destruct (is_model_call ev').
Qed.

Lemma construction_failure_witness :
  (fst (App.generate_code (task_rejecting_world boom) sample_globals todo_request [])
   = inr (failure_response (lit "Failed to generate code: boom"))
   /\ forall ev', In ev' (snd (App.generate_code (task_rejecting_world boom)
                                 sample_globals todo_request [])) ->
                  is_model_call ev' = false)
  /\ (fst (AppV2.generate_news (task_rejecting_world boom) sample_globals_v2
             tides_request [])
      = inr (failure_response (lit "Failed to create crew. Please try again."))
      /\ forall ev', In ev' (snd (AppV2.generate_news (task_rejecting_world boom)
                                    sample_globals_v2 tides_request [])) ->
                     is_model_call ev' = false).
Proof.
  split.
  - refine (proj1 (construction_failure_aborts_before_model_call
                     (task_rejecting_world boom) sample_globals sample_globals_v2
                     todo_request [] (EvTask first_task (Some boom)) boom
                     eq_refl eq_refl) _).
    find_event.
  - refine (proj2 (construction_failure_aborts_before_model_call
                     (task_rejecting_world boom) sample_globals sample_globals_v2
                     tides_request [] (EvTask first_news_task (Some boom)) boom
                     eq_refl eq_refl) _).
    find_event.
Defined.

(** C3, as stated: in the news application the [Task] constructor raises
    [boom], and the error of the response is the fixed text, in which the
    text of the exception does not occur. *)
Lemma news_construction_error_is_not_surfaced :
  In (EvTask first_news_task (Some boom))
     (snd (AppV2.generate_news (task_rejecting_world boom) sample_globals_v2
             tides_request []))
  /\ fst (AppV2.generate_news (task_rejecting_world boom) sample_globals_v2
            tides_request [])
     = inr (failure_response (lit "Failed to create crew. Please try again."))
  /\ field "error"
       (resp_json (failure_response (lit "Failed to create crew. Please try again.")))
     = Some (PStr (lit "Failed to create crew. Please try again."))
  /\ str_in (exn_str boom) (lit "Failed to create crew. Please try again.") = false.
Proof.
  split; [ find_event | ].
  split; [ vm_compute; reflexivity | split; reflexivity ].
Qed.

(** ** The stages of the pipelines *)

Lemma news_try_of_crew W G topic h c evs :
  AppV2.create_news_crew W G topic h = (inr (Some c), evs) ->
  AppV2.create_news_crew_try W G topic h = (inr (Some c), evs).
Proof.
  unfold AppV2.create_news_crew, try_except.
  destruct (AppV2.create_news_crew_try W G topic h) as [[e | oc] evs1].
  - cbv [bind print ret]. discriminate.
  - trivial.
Qed.

(** The stages of a pipeline the news builder returned. *)
Lemma news_builder_stages W G topic h c evs :
  AppV2.create_news_crew W G topic h = (inr (Some c), evs) ->
  exists d1 d2 d3 d4 o1 o2 o3 o4,
    (forall h' c' evs',
        AppV2.create_news_crew W G topic h' = (inr (Some c'), evs') -> c' = c) /\
    tasks c = [
      mkTask d1 (AppV2.journalist_agent G) o1;
      mkTask d2 (AppV2.news_writer_agent G) o2;
      mkTask d3 (AppV2.sentence_cleaner_agent G) o3;
      mkTask d4 (AppV2.merger_agent G) o4
    ].
Proof.
  intros H. apply news_try_of_crew in H.
  unfold AppV2.create_news_crew_try, bind, ret in H.
  do 4 step_constructor H. step_constructor H.
  injection H as <- _.
  do 8 eexists. split; [ | reflexivity ].
  intros h' c' evs' H'. apply news_try_of_crew in H'.
  unfold AppV2.create_news_crew_try, bind, ret in H'.
  do 4 step_constructor H'. step_constructor H'.
  injection H' as <- _. reflexivity.
Qed.

Lemma news_builder_returns W G topic h :
  accepting W ->
  exists c evs, AppV2.create_news_crew W G topic h = (inr (Some c), evs).
Proof.
  intros HW.
  unfold AppV2.create_news_crew, try_except, AppV2.create_news_crew_try, bind, ret.
  repeat rewrite (Task_new_accepted W _ _ HW).
  rewrite (Crew_new_accepted W _ _ HW).
  eauto.
Qed.

(** C6: a pipeline the code-generation builder returns has exactly 8 stages,
    bound in this order to the flowchart, technology-choice, architecture,
    code-generation, design-enhancement, error-fixing, testing and delivery
    agents; one the news builder returns has exactly 4, bound to the
    journalist, writer, editor and final-editor agents; a later call with the
    same input returns the same pipeline; and the builders do return a
    pipeline whenever the library accepts the tasks and the crew. *)
Theorem pipeline_has_fixed_stages :
  forall W G1 G2 (project_description requirements topic : pyval),
    (forall h c evs,
        App.create_code_generation_crew W G1 project_description requirements h
        = (inr c, evs) ->
        length (tasks c) = 8%nat
        /\ map agent (tasks c)
           = [Some (App.flowchart_agent G1); Some (App.choice_provider_agent G1);
              Some (App.architecture_agent G1); Some (App.code_generator_agent G1);
              Some (App.design_enhancer_agent G1); Some (App.error_fixer_agent G1);
              Some (App.testing_agent G1); Some (App.delivery_agent G1)]
        /\ forall h' c' evs',
             App.create_code_generation_crew W G1 project_description requirements h'
             = (inr c', evs') -> c' = c)
    /\ (forall h c evs,
          AppV2.create_news_crew W G2 topic h = (inr (Some c), evs) ->
          length (tasks c) = 4%nat
          /\ map agent (tasks c)
             = [AppV2.journalist_agent G2; AppV2.news_writer_agent G2;
                AppV2.sentence_cleaner_agent G2; AppV2.merger_agent G2]
          /\ forall h' c' evs',
               AppV2.create_news_crew W G2 topic h' = (inr (Some c'), evs') -> c' = c)
    /\ (accepting W ->
        forall h,
          (exists c evs,
              App.create_code_generation_crew W G1 project_description requirements h
              = (inr c, evs))
          /\ (exists c evs,
                 AppV2.create_news_crew W G2 topic h = (inr (Some c), evs))).
Proof.
  intros W G1 G2 pd reqs topic. split; [ | split ].
  - intros h c evs H.
    destruct (builder_stages _ _ _ _ _ _ _ H)
      as (d1 & d2 & d3 & d4 & d5 & d6 & d7 & d8
          & o1 & o2 & o3 & o4 & o5 & o6 & o7 & o8 & Hsame & Htasks).
    rewrite Htasks. repeat split; [ exact Hsame ].
  - intros h c evs H.
    destruct (news_builder_stages _ _ _ _ _ _ H)
      as (d1 & d2 & d3 & d4 & o1 & o2 & o3 & o4 & Hsame & Htasks).
    rewrite Htasks. repeat split; [ exact Hsame ].
  - intros HW h. split.
    + now apply builder_returns.
    + now apply news_builder_returns.
Qed.

(** With a library that accepts everything the builders return, and the
    pipelines of the sample requests have 8 and 4 stages. *)
Lemma pipeline_stages_witness :
  ((exists c evs,
       App.create_code_generation_crew (calm_world (inl boom)) sample_globals
         (PStr (lit "a todo list")) (PStr (lit "dark mode")) [] = (inr c, evs))
   /\ (exists c evs,
          AppV2.create_news_crew (calm_world (inl boom)) sample_globals_v2
            (PStr (lit "tides")) [] = (inr (Some c), evs)))
  /\ length (tasks (built_crew (calm_world (inl boom)) sample_globals
                      (PStr (lit "a todo list")) (PStr (lit "dark mode")))) = 8%nat
  /\ length (tasks (built_news_crew (calm_world (inl boom)) sample_globals_v2
                      (PStr (lit "tides")))) = 4%nat.
Proof.
  split; [ | split ].
  - refine (proj2 (proj2 (pipeline_has_fixed_stages
                            (calm_world (inl boom)) sample_globals sample_globals_v2
                            (PStr (lit "a todo list")) (PStr (lit "dark mode"))
                            (PStr (lit "tides")))) _ []).
    split; reflexivity.
  - refine (proj1 (proj1 (pipeline_has_fixed_stages
                            (calm_world (inl boom)) sample_globals sample_globals_v2
                            (PStr (lit "a todo list")) (PStr (lit "dark mode"))
                            (PStr (lit "tides")))
                     []
                     (built_crew (calm_world (inl boom)) sample_globals
                        (PStr (lit "a todo list")) (PStr (lit "dark mode")))
                     (snd (App.create_code_generation_crew (calm_world (inl boom))
                             sample_globals (PStr (lit "a todo list"))
                             (PStr (lit "dark mode")) []))
                     _)).
    vm_compute. reflexivity.
  - refine (proj1 (proj1 (proj2 (pipeline_has_fixed_stages
                            (calm_world (inl boom)) sample_globals sample_globals_v2
                            (PStr (lit "a todo list")) (PStr (lit "dark mode"))
                            (PStr (lit "tides"))))
                     []
                     (built_news_crew (calm_world (inl boom)) sample_globals_v2
                        (PStr (lit "tides")))
                     (snd (AppV2.create_news_crew (calm_world (inl boom))
                             sample_globals_v2 (PStr (lit "tides")) []))
                     _)).
    vm_compute. reflexivity.
Defined.

(** ** The health route *)

(** C7: whatever the world (the library and the executor) and whatever the
    module-level names hold (the credential among them), [GET /health]
    returns status 200 and the healthy payload in both applications, and
    touches nothing. *)
Theorem health_always_succeeds :
  forall W G1 G2 req h,
    App.dispatch W G1 App.GET_health req h
    = (inr {| resp_json := jsonify [(lit "status", PStr (lit "healthy"));
                                    (lit "service", PStr (lit "AI Code Generator"))];
              resp_status := 200 |}, [])
    /\ AppV2.dispatch W G2 AppV2.GET_health req h
       = (inr {| resp_json := jsonify [(lit "status", PStr (lit "healthy"))];
                 resp_status := 200 |}, []).
Proof. intros W G1 G2 req h. split; reflexivity. Qed.

(** ** The success response of the code generator *)

(** C8: a success response of [generate_code] carries the request's
    [project_description] and [requirements] as they were read from the body
    (the empty string for an absent [requirements]), and statistics with
    [agents_used] 8 and the fixed list of the eight phases. *)
Theorem success_response_echoes_request :
  forall W G req h resp,
    fst (App.generate_code W G req h) = inr resp ->
    field "success" (resp_json resp) = Some (PBool true) ->
    exists m stats,
      get_json req = inr (PDict m) /\
      field "project_description" (resp_json resp)
      = Some (dict_get m "project_description" (PStr (lit ""))) /\
      field "requirements" (resp_json resp)
      = Some (dict_get m "requirements" (PStr (lit ""))) /\
      field "stats" (resp_json resp) = Some stats /\
      field "agents_used" stats = Some (PInt 8) /\
      field "processing_phases" stats
      = Some (PList [PStr (lit "Flowchart Generation");
                     PStr (lit "Technology Selection");
                     PStr (lit "Architecture Design");
                     PStr (lit "Code Generation");
                     PStr (lit "Design Enhancement");
                     PStr (lit "Error Fixing");
                     PStr (lit "Testing");
                     PStr (lit "Final Delivery")]).
Proof.
  intros W G req h resp Hrun Hok.
  destruct (generate_code_runs W G req h) as
    [ e _ | v _ _ | m _ _ | m e evs _ _ Hb | m c evs e _ _ Hb | m c evs result Hj _ Hb ];
    cbn [fst] in Hrun; injection Hrun as <-; try discriminate Hok.
  destruct (code_generated_fields
              (dict_get m "project_description" (PStr (lit "")))
              (dict_get m "requirements" (PStr (lit ""))) result)
    as (_ & _ & _ & Hpd & Hreq & stats & Hstats & Hagents & Hphases & _).
  exists m, stats. auto 10.
Qed.

Lemma success_response_witness :
  exists m stats,
    get_json todo_request = inr (PDict m) /\
    field "project_description"
      (resp_json (App.code_generated (PStr (lit "a todo list")) (PStr (lit "dark mode"))
                    (StrResult a_b_newline_c)))
    = Some (dict_get m "project_description" (PStr (lit ""))) /\
    field "requirements"
      (resp_json (App.code_generated (PStr (lit "a todo list")) (PStr (lit "dark mode"))
                    (StrResult a_b_newline_c)))
    = Some (dict_get m "requirements" (PStr (lit ""))) /\
    field "stats"
      (resp_json (App.code_generated (PStr (lit "a todo list")) (PStr (lit "dark mode"))
                    (StrResult a_b_newline_c)))
    = Some stats /\
    field "agents_used" stats = Some (PInt 8) /\
    field "processing_phases" stats
    = Some (PList [PStr (lit "Flowchart Generation");
                   PStr (lit "Technology Selection");
                   PStr (lit "Architecture Design");
                   PStr (lit "Code Generation");
                   PStr (lit "Design Enhancement");
                   PStr (lit "Error Fixing");
                   PStr (lit "Testing");
                   PStr (lit "Final Delivery")]).
Proof.
  refine (success_response_echoes_request
            (calm_world (inr (StrResult a_b_newline_c))) sample_globals todo_request []
            (App.code_generated (PStr (lit "a todo list")) (PStr (lit "dark mode"))
               (StrResult a_b_newline_c)) _ _).
  - vm_compute. reflexivity.
  - reflexivity.
Defined.

(** ** The news application without agents *)

(** [create_agents] returns four agents or four times [None], and never
    raises. *)
Lemma create_agents_all_or_none W llm h :
  exists evs,
    (exists a b c d,
        AppV2.create_agents W llm h = (inr (Some a, Some b, Some c, Some d), evs))
    \/ AppV2.create_agents W llm h = (inr (None, None, None, None), evs).
Proof.
  unfold AppV2.create_agents, try_except, bind, ret, print, Agent_new.
  repeat match goal with
  | |- context [lib_Agent W ?hh ?a] => destruct (lib_Agent W hh a)
  end; eexists; first [ right; reflexivity | left; do 4 eexists; reflexivity ].
Qed.

(** C9: when one of the four module-level agents of the news application is
    [None], a request with a non-empty topic is answered with status 500 and
    the fixed text about agents, and the handler does nothing else: no
    [Task], no [Crew], no call of the executor. *)
Theorem news_without_agents_is_refused :
  forall W G req h topic,
    primary_input "topic" req = Some topic ->
    truthy topic = true ->
    (AppV2.journalist_agent G = None \/ AppV2.news_writer_agent G = None
     \/ AppV2.sentence_cleaner_agent G = None \/ AppV2.merger_agent G = None) ->
    AppV2.generate_news W G req h
    = (inr (failure_response
              (lit "Agents not properly initialized. Please check your API key and try again.")),
       []).
Proof.
  intros W G req h topic Hin Ht Hnone.
  unfold primary_input in Hin.
  destruct (get_json req) as [e | v] eqn:Hj; [ discriminate Hin | ].
  destruct v; try discriminate Hin.
  assert (truthy (dict_get m "topic" (PStr (lit ""))) = true) as Ht'.
  { unfold dict_get. now rewrite Hin. }
  assert (AppV2.all [AppV2.agent_truthy (AppV2.journalist_agent G);
                     AppV2.agent_truthy (AppV2.news_writer_agent G);
                     AppV2.agent_truthy (AppV2.sentence_cleaner_agent G);
                     AppV2.agent_truthy (AppV2.merger_agent G)] = false) as Hall.
  { unfold AppV2.all. cbn [forallb].
    destruct Hnone as [-> | [-> | [-> | ->]]]; cbn [AppV2.agent_truthy];
      rewrite ?andb_false_r; reflexivity. }
  destruct (generate_news_runs W G req h); try same_body;
    try discriminate; try congruence.
  reflexivity.
Qed.

Lemma news_without_agents_witness :
  AppV2.generate_news (calm_world (inr (StrResult (lit "unused")))) agentless_globals_v2
    tides_request []
  = (inr (failure_response
            (lit "Agents not properly initialized. Please check your API key and try again.")),
     []).
Proof.
  refine (news_without_agents_is_refused
            (calm_world (inr (StrResult (lit "unused")))) agentless_globals_v2
            tides_request [] (PStr (lit "tides")) _ _ _).
  - vm_compute. reflexivity.
  - reflexivity.
  - left. reflexivity.
Defined.

(** ** The probe of the credential *)

(** C10: [GET /test_api] always returns status 200; a missing key and a
    failing [Agent] constructor are reported in the fields [status] and
    [message] of the body only. *)
Theorem test_api_always_returns_200 :
  forall W G req h,
    exists status message,
      fst (AppV2.dispatch W G AppV2.GET_test_api req h)
      = inr {| resp_json := jsonify [(lit "status", PStr status);
                                     (lit "message", PStr message)];
               resp_status := 200 |}
      /\ (AppV2.key_truthy (AppV2.api_key G) = false ->
          status = lit "error" /\ message = lit "API key not found")
      /\ (forall a e,
             In (EvAgent a (Some e)) (snd (AppV2.dispatch W G AppV2.GET_test_api req h)) ->
             status = lit "error" /\ message = exn_str e)
      /\ (AppV2.key_truthy (AppV2.api_key G) = true ->
          (forall a e,
              ~ In (EvAgent a (Some e))
                  (snd (AppV2.dispatch W G AppV2.GET_test_api req h))) ->
          status = lit "success" /\ message = lit "API is working").
Proof.
  intros W G req h. cbn [AppV2.dispatch].
  unfold AppV2.test_api, try_except.
  destruct (AppV2.key_truthy (AppV2.api_key G)) eqn:Hkey; cbn [negb].
  - unfold bind, Agent_new, ret.
    destruct (lib_Agent W h (AppV2.test_agent G)) as [e | ] eqn:Hagent; cbn [fst snd app].
    + exists (lit "error"), (exn_str e). split; [ reflexivity | ].
      repeat split; try discriminate.
      * destruct H as [H | []]. now injection H as _ <-.
      * exfalso. apply (H0 (AppV2.test_agent G) e). now left.
      * exfalso. apply (H0 (AppV2.test_agent G) e). now left.
    + exists (lit "success"), (lit "API is working"). split; [ reflexivity | ].
      repeat split; try discriminate;
        destruct H as [H | []]; discriminate H.
  - exists (lit "error"), (lit "API key not found"). split; [ reflexivity | ].
    repeat split; try discriminate; destruct H.
Qed.

Lemma test_api_witness :
  exists status message,
    fst (AppV2.dispatch (agent_rejecting_world boom) sample_globals_v2
           AppV2.GET_test_api null_request [])
    = inr {| resp_json := jsonify [(lit "status", PStr status);
                                   (lit "message", PStr message)];
             resp_status := 200 |}
    /\ status = lit "error" /\ message = lit "boom".
Proof.
  destruct (test_api_always_returns_200 (agent_rejecting_world boom) sample_globals_v2
              null_request []) as (status & message & Hrun & _ & Hraised & _).
  exists status, message. split; [ exact Hrun | ].
  apply (Hraised (AppV2.test_agent sample_globals_v2) boom).
  left. reflexivity.
Defined.

(** ** More on the monad *)

Lemma stops_at_failure_ret {A} (a : A) : stops_at_failure (ret a).
Proof. intros h r evs H. injection H as <- <-. constructor. Qed.

Lemma stops_at_failure_print s : stops_at_failure (print s).
Proof.
  intros h r evs H. injection H as <- <-. repeat constructor.
Qed.

Lemma stops_at_failure_bind {A B} (m : M A) (f : A -> M B) :
  stops_at_failure m -> (forall a, stops_at_failure (f a)) ->
  stops_at_failure (bind m f).
Proof.
  intros Hm Hf h r evs Hrun. unfold bind in Hrun.
  destruct (m h) as [[e | a] evs1] eqn:Em.
  - injection Hrun as <- <-. exact (Hm _ _ _ Em).
  - destruct (f a (h ++ evs1)) as [r2 evs2] eqn:Ef.
    injection Hrun as <- <-.
    pose proof (Hm _ _ _ Em) as Q1. pose proof (Hf _ _ _ _ Ef) as Q2.
    cbv beta iota in Q1. destruct r2 as [e | b].
    + destruct Q2 as (pre & ev & -> & Qpre & Hev).
      exists (evs1 ++ pre), ev. rewrite app_assoc.
      split; [ reflexivity | split; [ | exact Hev ] ].
      apply Forall_app. now split.
    + apply Forall_app. now split.
Qed.

Lemma stops_at_failure_LLM_new W l : stops_at_failure (LLM_new W l).
Proof.
  intros h r evs H. unfold LLM_new in H.
  destruct (lib_LLM W h l) as [e | ]; injection H as <- <-.
  - eexists [], _. repeat split. constructor.
  - repeat constructor.
Qed.

Lemma stops_at_failure_Agent_new W a : stops_at_failure (Agent_new W a).
Proof.
  intros h r evs H. unfold Agent_new in H.
  destruct (lib_Agent W h a) as [e | ]; injection H as <- <-.
  - eexists [], _. repeat split. constructor.
  - repeat constructor.
Qed.

Lemma stops_at_failure_Task_new W t : stops_at_failure (Task_new W t).
Proof.
  intros h r evs H. unfold Task_new in H.
  destruct (lib_Task W h t) as [e | ]; injection H as <- <-.
  - eexists [], _. repeat split. constructor.
  - repeat constructor.
Qed.

Lemma stops_at_failure_Crew_new W c : stops_at_failure (Crew_new W c).
Proof.
  intros h r evs H. unfold Crew_new in H.
  destruct (lib_Crew W h c) as [e | ]; injection H as <- <-.
  - eexists [], _. repeat split. constructor.
  - repeat constructor.
Qed.

Lemma stops_at_failure_kickoff W c : stops_at_failure (Crew_kickoff W c).
Proof.
  intros h r evs H. unfold Crew_kickoff in H. injection H as <- <-.
  destruct (lib_kickoff W h c) as [e | res].
  - eexists [], _. repeat split. constructor.
  - repeat constructor.
Qed.

(** Chains of calls and prints stop at the first failure. *)
Ltac chain_stops :=
  repeat first
    [ apply stops_at_failure_ret
    | apply stops_at_failure_print
    | apply stops_at_failure_LLM_new
    | apply stops_at_failure_Agent_new
    | apply stops_at_failure_Task_new
    | apply stops_at_failure_Crew_new
    | apply stops_at_failure_kickoff
    | apply stops_at_failure_bind; [ | intros ] ].

Lemma emits_only_LLM_new W P l :
  (forall o, P (EvLLM l o) = true) -> emits_only P (LLM_new W l).
Proof.
  intros HP h r evs ev H Hin. unfold LLM_new in H.
  destruct (lib_LLM W h l); inversion H; subst;
    destruct Hin as [<- | []]; apply HP.
Qed.

Lemma emits_only_Agent_new W P a :
  (forall o, P (EvAgent a o) = true) -> emits_only P (Agent_new W a).
Proof.
  intros HP h r evs ev H Hin. unfold Agent_new in H.
  destruct (lib_Agent W h a); inversion H; subst;
    destruct Hin as [<- | []]; apply HP.
Qed.

Lemma emits_only_kickoff W P c :
  (forall o, P (EvKickoff c o) = true) -> emits_only P (Crew_kickoff W c).
Proof.
  intros HP h r evs ev H Hin. unfold Crew_kickoff in H.
  inversion H; subst. destruct Hin as [<- | []]. apply HP.
Qed.

Lemma emits_only_print_exc P e :
  P (EvPrintExc e) = true -> emits_only P (print_exc e).
Proof.
  intros HP h r evs ev H Hin. inversion H; subst.
  destruct Hin as [<- | []]. exact HP.
Qed.

Lemma emits_only_raise {A} P e : emits_only P (@raise A e).
Proof. intros h r evs ev H Hin. inversion H; subst. destruct Hin. Qed.

(** Chains of calls and prints emit only events that satisfy the test. *)
Ltac chain_emits :=
  repeat first
    [ apply emits_only_ret
    | apply emits_only_raise
    | apply emits_only_print; reflexivity
    | apply emits_only_print_exc; reflexivity
    | apply emits_only_LLM_new; reflexivity
    | apply emits_only_Agent_new; reflexivity
    | apply emits_only_Task_new; reflexivity
    | apply emits_only_Crew_new; reflexivity
    | apply emits_only_kickoff; reflexivity
    | apply emits_only_bind; [ | intros ]
    | apply emits_only_try_except; [ | intros ] ].

Lemma filter_nothing {A} (P : A -> bool) (l : list A) :
  (forall x, In x l -> P x = false) -> List.filter P l = [].
Proof.
  induction l as [ | x l IH]; intros H; [ reflexivity | ].
  cbn [List.filter]. rewrite (H x (or_introl eq_refl)).
  apply IH. intros y Hy. apply H. now right.
Qed.

(** ** Substrings *)

Lemma str_startswith_app p s : str_startswith p (p ++ s) = true.
Proof.
  induction p as [ | c p IH]; [ reflexivity | ].
  cbn [app str_startswith]. now rewrite N.eqb_refl.
Qed.

Lemma str_in_here p s : str_in p (p ++ s) = true.
Proof.
  destruct (p ++ s) as [ | c rest] eqn:E.
  - apply app_eq_nil in E as [-> _]. reflexivity.
  - cbn [str_in]. rewrite <- E, str_startswith_app. reflexivity.
Qed.

Lemma str_in_later p a s : str_in p s = true -> str_in p (a ++ s) = true.
Proof.
  intros H. induction a as [ | c a IH]; [ exact H | ].
  cbn [app str_in]. rewrite IH. apply orb_true_r.
Qed.

(** [p] occurs in a concatenation one of whose pieces is [p]. *)
Ltac find_piece :=
  first [ apply str_in_here | apply str_in_later; find_piece ].

(** ** The builders, call by call *)

Lemma builder_only_constructs W G pd reqs :
  emits_only is_construction (App.create_code_generation_crew W G pd reqs).
Proof. unfold App.create_code_generation_crew. chain_emits. Qed.

Lemma builder_stops_at_failure W G pd reqs :
  stops_at_failure (App.create_code_generation_crew W G pd reqs).
Proof. unfold App.create_code_generation_crew. chain_stops. Qed.

Lemma Task_new_inr W t h t' evs :
  Task_new W t h = (inr t', evs) -> t' = t /\ evs = [EvTask t None].
Proof.
  unfold Task_new. destruct (lib_Task W h t); [ discriminate | ].
  intros H. injection H as <- <-. now split.
Qed.

Lemma Crew_new_inr W c h c' evs :
  Crew_new W c h = (inr c', evs) -> c' = c /\ evs = [EvCrew c None].
Proof.
  unfold Crew_new. destruct (lib_Crew W h c); [ discriminate | ].
  intros H. injection H as <- <-. now split.
Qed.

(** As [step_constructor], keeping the event of the call. *)
Ltac step_call H :=
  lazymatch type of H with
  | context [Task_new ?W ?t ?h] =>
      let E := fresh "E" in
      let t' := fresh "t" in
      let l := fresh "l" in
      destruct (Task_new W t h) as [[? | t'] l] eqn:E;
      [ try discriminate H
      | apply Task_new_inr in E; destruct E as [-> ->]; cbv beta iota in H ]
  | context [Crew_new ?W ?c ?h] =>
      let E := fresh "E" in
      let c' := fresh "c" in
      let l := fresh "l" in
      destruct (Crew_new W c h) as [[? | c'] l] eqn:E;
      [ try discriminate H
      | apply Crew_new_inr in E; destruct E as [-> ->]; cbv beta iota in H ]
  end.

Lemma returned_inj {A} (a b : A) (l l' : list event) :
  (@inr exn A a, l) = (inr b, l') -> a = b /\ l = l'.
Proof. intros H. injection H as -> ->. now split. Qed.

(** What a run of the code-generation builder that returned has done and
    built. *)
Lemma builder_success W G pd reqs h c evs :
  App.create_code_generation_crew W G pd reqs h = (inr c, evs) ->
  evs = construction_events c
  /\ agents c = map agent (tasks c)
  /\ process c = sequential
  /\ Forall (fun t => str_in (py_str W pd) (description t) = true) (firstn 4 (tasks c))
  /\ Forall (fun t => str_in (py_str W reqs) (description t) = true) (firstn 2 (tasks c))
  /\ forall W' pd' reqs' h' c' evs',
       App.create_code_generation_crew W' G pd' reqs' h' = (inr c', evs') ->
       skipn 4 (tasks c') = skipn 4 (tasks c).
Proof.
  intros H. unfold App.create_code_generation_crew, bind, ret in H.
  do 8 step_call H. step_call H.
  apply returned_inj in H as [<- <-].
  split; [ | split; [ | split; [ | split; [ | split ] ] ] ].
  - reflexivity.
  - reflexivity.
  - reflexivity.
  - cbv beta iota delta [tasks firstn].
    repeat (constructor; [ cbv beta iota delta [description]; find_piece | ]).
    constructor.
  - cbv beta iota delta [tasks firstn].
    repeat (constructor; [ cbv beta iota delta [description]; find_piece | ]).
    constructor.
  - intros W' pd' reqs' h' c' evs' H'.
    unfold App.create_code_generation_crew, bind, ret in H'.
    do 8 step_constructor H'. step_constructor H'.
    apply returned_inj in H' as [<- _]. reflexivity.
Qed.

Lemma built_inj (a b : Crew) : Some a = Some b -> a = b.
Proof. congruence. Qed.

Lemma news_try_only_constructs W G topic :
  emits_only is_construction (AppV2.create_news_crew_try W G topic).
Proof. unfold AppV2.create_news_crew_try. chain_emits. Qed.

Lemma news_try_stops_at_failure W G topic :
  stops_at_failure (AppV2.create_news_crew_try W G topic).
Proof. unfold AppV2.create_news_crew_try. chain_stops. Qed.

(** What a run of the news builder that returned a crew has done and
    built. *)
Lemma news_builder_success W G topic h c evs :
  AppV2.create_news_crew W G topic h = (inr (Some c), evs) ->
  evs = construction_events c
  /\ agents c = map agent (tasks c)
  /\ process c = sequential
  /\ Forall (fun t => str_in (py_str W topic) (description t) = true)
       (firstn 2 (tasks c))
  /\ forall W' topic' h' c' evs',
       AppV2.create_news_crew W' G topic' h' = (inr (Some c'), evs') ->
       skipn 2 (tasks c') = skipn 2 (tasks c).
Proof.
  intros H. apply news_try_of_crew in H.
  unfold AppV2.create_news_crew_try, bind, ret in H.
  do 4 step_call H. step_call H.
  apply returned_inj in H as [H <-]. apply built_inj in H as <-.
  split; [ | split; [ | split; [ | split ] ] ].
  - reflexivity.
  - reflexivity.
  - reflexivity.
  - cbv beta iota delta [tasks firstn].
    repeat (constructor; [ cbv beta iota delta [description]; find_piece | ]).
    constructor.
  - intros W' topic' h' c' evs' H'. apply news_try_of_crew in H'.
    unfold AppV2.create_news_crew_try, bind, ret in H'.
    do 4 step_constructor H'. step_constructor H'.
    apply returned_inj in H' as [H' _]. apply built_inj in H' as <-. reflexivity.
Qed.

(** What a run of the news builder that returned [None] has done. *)
Lemma news_builder_failure W G topic h evs :
  AppV2.create_news_crew W G topic h = (inr None, evs) ->
  exists e pre ev,
    evs = pre ++ [ev; EvPrint (lit "Error creating crew: " ++ exn_str e)]
    /\ Forall quiet pre
    /\ is_construction ev = true
    /\ raised_by ev = Some e.
Proof.
  unfold AppV2.create_news_crew, try_except. intros H.
  destruct (AppV2.create_news_crew_try W G topic h) as [[e | oc] evs1] eqn:Etry.
  - cbv [bind print ret] in H. apply returned_inj in H as [_ <-].
    destruct (news_try_stops_at_failure W G topic _ _ _ Etry)
      as (pre & ev & -> & Hpre & Hev).
    exists e, pre, ev. rewrite <- app_assoc.
    split; [ reflexivity | split; [ exact Hpre | split; [ | exact Hev ] ] ].
    apply (news_try_only_constructs W G topic _ _ _ ev Etry).
    apply in_or_app. right. now left.
  - apply returned_inj in H as [-> _].
    exfalso. exact (news_try_returns_crew W G topic _ _ _ Etry eq_refl).
Qed.

(** ** Properties of the builders *)

(** X1: the code-generation builder only calls the [Task] and [Crew]
    constructors; when it returns a crew it has built its eight tasks in
    order and then the crew, each call returning; when it raises, the call
    that raised is its last call and every earlier one returned. *)
Theorem code_builder_protocol :
  forall W G pd reqs h,
    (forall ev, In ev (snd (App.create_code_generation_crew W G pd reqs h)) ->
                is_construction ev = true)
    /\ match fst (App.create_code_generation_crew W G pd reqs h) with
       | inr c =>
           snd (App.create_code_generation_crew W G pd reqs h) = construction_events c
           /\ length (tasks c) = 8%nat
       | inl e =>
           exists pre ev,
             snd (App.create_code_generation_crew W G pd reqs h) = pre ++ [ev]
             /\ Forall quiet pre
             /\ raised_by ev = Some e
       end.
Proof.
  intros W G pd reqs h.
  destruct (App.create_code_generation_crew W G pd reqs h) as [r evs] eqn:Hrun.
  cbn [fst snd]. split.
  - intros ev Hin. exact (builder_only_constructs W G pd reqs _ _ _ ev Hrun Hin).
  - destruct r as [e | c].
    + exact (builder_stops_at_failure W G pd reqs _ _ _ Hrun).
    + split; [ apply (builder_success _ _ _ _ _ _ _ Hrun) | ].
      destruct (builder_stages _ _ _ _ _ _ _ Hrun)
        as (d1 & d2 & d3 & d4 & d5 & d6 & d7 & d8
            & o1 & o2 & o3 & o4 & o5 & o6 & o7 & o8 & _ & ->).
      reflexivity.
Qed.

(** X2: the news builder never raises; it returns a crew after building its
    four tasks and the crew, each call returning, or it returns [None] after
    a constructor raised, having made no further call and printed the
    error. *)
Theorem news_builder_protocol :
  forall W G topic h,
    match fst (AppV2.create_news_crew W G topic h) with
    | inr (Some c) =>
        snd (AppV2.create_news_crew W G topic h) = construction_events c
        /\ length (tasks c) = 4%nat
    | inr None =>
        exists e pre ev,
          snd (AppV2.create_news_crew W G topic h)
          = pre ++ [ev; EvPrint (lit "Error creating crew: " ++ exn_str e)]
          /\ Forall quiet pre
          /\ is_construction ev = true
          /\ raised_by ev = Some e
    | inl _ => False
    end.
Proof.
  intros W G topic h.
  destruct (AppV2.create_news_crew W G topic h) as [r evs] eqn:Hrun.
  destruct (news_builder_outcome _ _ _ _ _ _ Hrun) as (oc & -> & _).
  cbn [fst snd]. destruct oc as [c | ].
  - split; [ apply (news_builder_success _ _ _ _ _ _ Hrun) | ].
    destruct (news_builder_stages _ _ _ _ _ _ Hrun)
      as (d1 & d2 & d3 & d4 & o1 & o2 & o3 & o4 & _ & ->).
    reflexivity.
  - exact (news_builder_failure _ _ _ _ _ Hrun).
Qed.

(** X3: in every crew a builder returns, the list of agents is the list of
    the agents of its tasks, in the same order, and the process is
    sequential. *)
Theorem built_crews_list_the_agents_of_their_tasks :
  forall W G1 G2 pd reqs topic h,
    match fst (App.create_code_generation_crew W G1 pd reqs h) with
    | inr c => agents c = map agent (tasks c) /\ process c = sequential
    | inl _ => True
    end
    /\ match fst (AppV2.create_news_crew W G2 topic h) with
       | inr (Some c) => agents c = map agent (tasks c) /\ process c = sequential
       | _ => True
       end.
Proof.
  intros W G1 G2 pd reqs topic h. split.
  - destruct (App.create_code_generation_crew W G1 pd reqs h) as [[e | c] evs] eqn:Hrun;
      cbn [fst]; [ exact I | ].
    destruct (builder_success _ _ _ _ _ _ _ Hrun) as (_ & Ha & Hp & _). now split.
  - destruct (AppV2.create_news_crew W G2 topic h) as [[e | [c | ]] evs] eqn:Hrun;
      cbn [fst]; try exact I.
    destruct (news_builder_success _ _ _ _ _ _ Hrun) as (_ & Ha & Hp & _). now split.
Qed.

(** X4: the inputs reach the prompts verbatim: in a crew the
    code-generation builder returns, the descriptions of the first four
    tasks contain the text of the project description and those of the
    first two the text of the requirements; in a crew the news builder
    returns, the descriptions of the first two tasks contain the topic. *)
Theorem inputs_occur_in_task_descriptions :
  forall W G1 G2 pd reqs topic h,
    match fst (App.create_code_generation_crew W G1 pd reqs h) with
    | inr c =>
        Forall (fun t => str_in (py_str W pd) (description t) = true)
          (firstn 4 (tasks c))
        /\ Forall (fun t => str_in (py_str W reqs) (description t) = true)
             (firstn 2 (tasks c))
    | inl _ => True
    end
    /\ match fst (AppV2.create_news_crew W G2 topic h) with
       | inr (Some c) =>
           Forall (fun t => str_in (py_str W topic) (description t) = true)
             (firstn 2 (tasks c))
       | _ => True
       end.
Proof.
  intros W G1 G2 pd reqs topic h. split.
  - destruct (App.create_code_generation_crew W G1 pd reqs h) as [[e | c] evs] eqn:Hrun;
      cbn [fst]; [ exact I | ].
    destruct (builder_success _ _ _ _ _ _ _ Hrun) as (_ & _ & _ & H4 & H2 & _).
    now split.
  - destruct (AppV2.create_news_crew W G2 topic h) as [[e | [c | ]] evs] eqn:Hrun;
      cbn [fst]; try exact I.
    destruct (news_builder_success _ _ _ _ _ _ Hrun) as (_ & _ & _ & H2 & _).
    exact H2.
Qed.

(** X5: the later stages do not depend on the request: two crews the
    code-generation builder returns, for any two inputs in any two worlds,
    have the same last four tasks, and two crews of the news builder the
    same last two. *)
Theorem later_stages_are_fixed :
  forall W W' G1 G2 pd reqs pd' reqs' topic topic' h h' c c' evs evs',
    (App.create_code_generation_crew W G1 pd reqs h = (inr c, evs) ->
     App.create_code_generation_crew W' G1 pd' reqs' h' = (inr c', evs') ->
     skipn 4 (tasks c') = skipn 4 (tasks c))
    /\ (AppV2.create_news_crew W G2 topic h = (inr (Some c), evs) ->
        AppV2.create_news_crew W' G2 topic' h' = (inr (Some c'), evs') ->
        skipn 2 (tasks c') = skipn 2 (tasks c)).
Proof.
  intros W W' G1 G2 pd reqs pd' reqs' topic topic' h h' c c' evs evs'. split.
  - intros H H'.
    destruct (builder_success _ _ _ _ _ _ _ H) as (_ & _ & _ & _ & _ & Hfix).
    exact (Hfix _ _ _ _ _ _ H').
  - intros H H'.
    destruct (news_builder_success _ _ _ _ _ _ H) as (_ & _ & _ & _ & Hfix).
    exact (Hfix _ _ _ _ _ H').
Qed.

(** A second request for the code generator. *)
Lemma later_stages_witness :
  skipn 4 (tasks (built_crew (calm_world (inl boom)) sample_globals
                    (PStr (lit "a chess clock")) PNone))
  = skipn 4 (tasks (built_crew (calm_world (inl quota_exceeded)) sample_globals
                      (PStr (lit "a todo list")) (PStr (lit "dark mode"))))
  /\ skipn 2 (tasks (built_news_crew (calm_world (inl boom)) sample_globals_v2
                       (PStr (lit "storms"))))
     = skipn 2 (tasks (built_news_crew (calm_world (inl quota_exceeded))
                         sample_globals_v2 (PStr (lit "tides")))).
Proof.
  split.
  - refine (proj1 (later_stages_are_fixed
                     (calm_world (inl quota_exceeded)) (calm_world (inl boom))
                     sample_globals sample_globals_v2
                     (PStr (lit "a todo list")) (PStr (lit "dark mode"))
                     (PStr (lit "a chess clock")) PNone
                     (PStr (lit "tides")) (PStr (lit "storms")) [] []
                     (built_crew (calm_world (inl quota_exceeded)) sample_globals
                        (PStr (lit "a todo list")) (PStr (lit "dark mode")))
                     (built_crew (calm_world (inl boom)) sample_globals
                        (PStr (lit "a chess clock")) PNone)
                     (snd (App.create_code_generation_crew
                             (calm_world (inl quota_exceeded)) sample_globals
                             (PStr (lit "a todo list")) (PStr (lit "dark mode")) []))
                     (snd (App.create_code_generation_crew
                             (calm_world (inl boom)) sample_globals
                             (PStr (lit "a chess clock")) PNone []))) _ _);
      vm_compute; reflexivity.
  - refine (proj2 (later_stages_are_fixed
                     (calm_world (inl quota_exceeded)) (calm_world (inl boom))
                     sample_globals sample_globals_v2
                     (PStr (lit "a todo list")) (PStr (lit "dark mode"))
                     (PStr (lit "a chess clock")) PNone
                     (PStr (lit "tides")) (PStr (lit "storms")) [] []
                     (built_news_crew (calm_world (inl quota_exceeded))
                        sample_globals_v2 (PStr (lit "tides")))
                     (built_news_crew (calm_world (inl boom)) sample_globals_v2
                        (PStr (lit "storms")))
                     (snd (AppV2.create_news_crew (calm_world (inl quota_exceeded))
                             sample_globals_v2 (PStr (lit "tides")) []))
                     (snd (AppV2.create_news_crew (calm_world (inl boom))
                             sample_globals_v2 (PStr (lit "storms")) []))) _ _);
      vm_compute; reflexivity.
Defined.

(** ** Properties of the request handlers *)

Lemma builder_makes_no_model_call W G pd reqs hb r evs ev :
  App.create_code_generation_crew W G pd reqs hb = (r, evs) ->
  In ev evs -> is_model_call ev = false /\ is_agent_construction ev = false.
Proof.
  intros Hb Hin.
  pose proof (builder_only_constructs W G pd reqs _ _ _ ev Hb Hin) as Hc.
  destruct ev; try discriminate Hc; now split.
Qed.

Lemma news_builder_only_constructs_and_prints W G topic :
  emits_only (fun ev => negb (is_model_call ev) && negb (is_agent_construction ev))
    (AppV2.create_news_crew W G topic).
Proof.
  unfold AppV2.create_news_crew, AppV2.create_news_crew_try. chain_emits.
Qed.

Lemma news_builder_makes_no_model_call W G topic hb r evs ev :
  AppV2.create_news_crew W G topic hb = (r, evs) ->
  In ev evs -> is_model_call ev = false /\ is_agent_construction ev = false.
Proof.
  intros Hb Hin.
  pose proof (news_builder_only_constructs_and_prints W G topic _ _ _ ev Hb Hin) as Hc.
  cbv beta in Hc. destruct ev; try discriminate Hc; now split.
Qed.

(** The executor was not called in a run whose events are those of a
    builder between prints. *)
Ltac no_executor H :=
  let crew := fresh "crew" in
  let res := fresh "res" in
  let Hin := fresh "Hin" in
  destruct H as (crew & res & Hin); split_membership Hin;
  try (exfalso; eapply kickoff_not_in_builder; eassumption);
  try (exfalso; eapply kickoff_not_in_news_builder; eassumption).

(** The body read in a run is not a rejected one. *)
Ltac not_rejected Hj H :=
  let m' := fresh "m" in
  let Hm := fresh "Hm" in
  let Hf := fresh "Hf" in
  destruct H as (m' & Hm & Hf); rewrite Hj in Hm;
  first [ discriminate Hm
        | injection Hm as <-; congruence
        | injection Hm as ->; discriminate ].

(** The two equivalences of the classification of a run, but for the side
    that holds. *)
Ltac classify Hj :=
  let H := fresh "H" in
  split; [ auto | ]; split; split; intros H;
  try discriminate H; try reflexivity;
  try solve [ no_executor H ]; try solve [ not_rejected Hj H ].

(** X6: [generate_code] never lets an exception escape: it answers every
    request with status 200, 400 or 500; with 400 exactly when the body is a
    JSON object whose [project_description] is absent or falsy, and with 200
    exactly when the executor was called and returned. *)
Theorem generate_code_always_answers :
  forall W G req h,
    exists resp,
      fst (App.generate_code W G req h) = inr resp
      /\ (resp_status resp = 200 \/ resp_status resp = 400 \/ resp_status resp = 500)
      /\ (resp_status resp = 400 <-> rejected_input "project_description" req)
      /\ (resp_status resp = 200
          <-> executor_returned (snd (App.generate_code W G req h))).
Proof.
  intros W G req h. unfold rejected_input, executor_returned.
  destruct (generate_code_runs W G req h) as
    [ e Hj | v Hj Hd | m Hj Ht | m e evs Hj Ht Hb | m c evs e Hj Ht Hb
    | m c evs result Hj Ht Hb ];
    cbn [fst snd]; eexists; (split; [ reflexivity | ]);
    cbn [resp_status App.generation_failed App.description_required App.code_generated];
    classify Hj.
  - now exists m.
  - exists c, result. right. apply in_or_app. right. right. now left.
Qed.

(** X7: [generate_news] never lets an exception escape: it answers every
    request with status 200, 400 or 500; with 400 exactly when the body is a
    JSON object whose [topic] is absent or falsy, and with 200 exactly when
    the executor was called and returned. *)
Theorem generate_news_always_answers :
  forall W G req h,
    exists resp,
      fst (AppV2.generate_news W G req h) = inr resp
      /\ (resp_status resp = 200 \/ resp_status resp = 400 \/ resp_status resp = 500)
      /\ (resp_status resp = 400 <-> rejected_input "topic" req)
      /\ (resp_status resp = 200
          <-> executor_returned (snd (AppV2.generate_news W G req h))).
Proof.
  intros W G req h. unfold rejected_input, executor_returned.
  destruct (generate_news_runs W G req h) as
    [ e Hj | v Hj Hd | m Hj Ht | m Hj Ht Ha | m evs Hj Ht Ha Hb
    | m c evs e Hj Ht Ha Hb | m c evs result Hj Ht Ha Hb ];
    cbn [fst snd]; eexists; (split; [ reflexivity | ]);
    cbn [resp_status AppV2.news_failed AppV2.topic_required
           AppV2.agents_not_initialized AppV2.crew_not_created AppV2.article_written];
    classify Hj.
  - now exists m.
  - exists c, result. right. apply in_or_app. right. right. now left.
Qed.

Lemma crew_event_in c : In (EvCrew c None) (construction_events c).
Proof. unfold construction_events. apply in_or_app. right. now left. Qed.

(** X8: per request, [generate_code] and [generate_news] construct neither
    an [LLM] nor an [Agent], call the executor at most once, and call it
    only on a crew whose construction returned during the same request. *)
Theorem handlers_call_executor_once_on_their_crew :
  forall W G1 G2 req h,
    ((forall ev, In ev (snd (App.generate_code W G1 req h)) ->
                 is_agent_construction ev = false)
     /\ (model_calls (snd (App.generate_code W G1 req h)) <= 1)%nat
     /\ (forall crew out,
            In (EvKickoff crew out) (snd (App.generate_code W G1 req h)) ->
            In (EvCrew crew None) (snd (App.generate_code W G1 req h))))
    /\ ((forall ev, In ev (snd (AppV2.generate_news W G2 req h)) ->
                    is_agent_construction ev = false)
        /\ (model_calls (snd (AppV2.generate_news W G2 req h)) <= 1)%nat
        /\ (forall crew out,
               In (EvKickoff crew out) (snd (AppV2.generate_news W G2 req h)) ->
               In (EvCrew crew None) (snd (AppV2.generate_news W G2 req h)))).
Proof.
  intros W G1 G2 req h. split.
  - assert (forall pd reqs hb r evs,
               App.create_code_generation_crew W G1 pd reqs hb = (r, evs) ->
               List.filter is_model_call evs = []) as Hnone.
    { intros pd reqs hb r evs Hb. apply filter_nothing. intros ev Hin.
      apply (builder_makes_no_model_call _ _ _ _ _ _ _ _ Hb Hin). }
    unfold model_calls.
    destruct (generate_code_runs W G1 req h) as
      [ e Hj | v Hj Hd | m Hj Ht | m e evs Hj Ht Hb | m c evs e Hj Ht Hb
      | m c evs result Hj Ht Hb ];
      cbn [fst snd];
      (split; [ intros ev Hin | split; [ | intros crew out Hin ] ]);
      try (cbn [List.filter is_model_call length];
           rewrite ?List.filter_app, ?(Hnone _ _ _ _ _ Hb);
           cbn [List.filter is_model_call app length]; lia);
      split_membership Hin; subst; try reflexivity;
      try (apply (builder_makes_no_model_call _ _ _ _ _ _ _ _ Hb Hin));
      try (exfalso; eapply kickoff_not_in_builder; eassumption).
    + injection Hin as <- _. right. apply in_or_app. left.
      rewrite (proj1 (builder_success _ _ _ _ _ _ _ Hb)). apply crew_event_in.
    + injection Hin as <- _. right. apply in_or_app. left.
      rewrite (proj1 (builder_success _ _ _ _ _ _ _ Hb)). apply crew_event_in.
  - assert (forall topic hb r evs,
               AppV2.create_news_crew W G2 topic hb = (r, evs) ->
               List.filter is_model_call evs = []) as Hnone.
    { intros topic hb r evs Hb. apply filter_nothing. intros ev Hin.
      apply (news_builder_makes_no_model_call _ _ _ _ _ _ _ Hb Hin). }
    unfold model_calls.
    destruct (generate_news_runs W G2 req h) as
      [ e Hj | v Hj Hd | m Hj Ht | m Hj Ht Ha | m evs Hj Ht Ha Hb
      | m c evs e Hj Ht Ha Hb | m c evs result Hj Ht Ha Hb ];
      cbn [fst snd];
      (split; [ intros ev Hin | split; [ | intros crew out Hin ] ]);
      try (cbn [List.filter is_model_call length];
           rewrite ?List.filter_app, ?(Hnone _ _ _ _ Hb);
           cbn [List.filter is_model_call app length]; lia);
      split_membership Hin; subst; try reflexivity;
      try (apply (news_builder_makes_no_model_call _ _ _ _ _ _ _ Hb Hin));
      try (exfalso; eapply kickoff_not_in_news_builder; eassumption).
    + injection Hin as <- _. right. apply in_or_app. left.
      rewrite (proj1 (news_builder_success _ _ _ _ _ _ Hb)). apply crew_event_in.
    + injection Hin as <- _. right. apply in_or_app. left.
      rewrite (proj1 (news_builder_success _ _ _ _ _ _ Hb)). apply crew_event_in.
Qed.

(** X9: the reported result is the executor's: when the executor returned
    [result], [generate_code] answers with the success response built from
    the two fields of the request and [result], whose [generated_code] is
    [str(result)], and [generate_news] answers with status 200 and exactly
    the fields [success] (true) and [article], the latter [str(result)]. *)
Theorem handlers_report_the_executor_result :
  forall W G1 G2 req h crew result,
    (In (EvKickoff crew (inr result)) (snd (App.generate_code W G1 req h)) ->
     exists m,
       get_json req = inr (PDict m)
       /\ fst (App.generate_code W G1 req h)
          = inr (App.code_generated
                   (dict_get m "project_description" (PStr (lit "")))
                   (dict_get m "requirements" (PStr (lit ""))) result)
       /\ field "generated_code"
            (resp_json (App.code_generated
                          (dict_get m "project_description" (PStr (lit "")))
                          (dict_get m "requirements" (PStr (lit ""))) result))
          = Some (PStr (result_str result)))
    /\ (In (EvKickoff crew (inr result)) (snd (AppV2.generate_news W G2 req h)) ->
        fst (AppV2.generate_news W G2 req h)
        = inr {| resp_json := jsonify [(lit "success", PBool true);
                                       (lit "article", PStr (result_str result))];
                 resp_status := 200 |}
        /\ exists m,
             jsonify [(lit "success", PBool true);
                      (lit "article", PStr (result_str result))] = PDict m
             /\ dom m = {[ lit "success"; lit "article" ]}).
Proof.
  intros W G1 G2 req h crew result. split; intros Hin.
  - destruct (generate_code_runs W G1 req h) as
      [ e Hj | v Hj Hd | m Hj Ht | m e evs Hj Ht Hb | m c evs e Hj Ht Hb
      | m c evs res Hj Ht Hb ];
      cbn [fst snd] in *; split_membership Hin;
      try (exfalso; eapply kickoff_not_in_builder; eassumption).
    assert (res = result) as -> by congruence.
    exists m. repeat split. exact Hj.
  - destruct (generate_news_runs W G2 req h) as
      [ e Hj | v Hj Hd | m Hj Ht | m Hj Ht Ha | m evs Hj Ht Ha Hb
      | m c evs e Hj Ht Ha Hb | m c evs res Hj Ht Ha Hb ];
      cbn [fst snd] in *; split_membership Hin;
      try (exfalso; eapply kickoff_not_in_news_builder; eassumption).
    assert (res = result) as -> by congruence.
    split; [ reflexivity | ].
    eexists. split; [ reflexivity | ].
    cbn [list_to_map foldr fst snd uncurry].
    rewrite !dom_insert_L, dom_empty_L. set_solver.
Qed.

Lemma executor_result_witness :
  (exists m,
      get_json todo_request = inr (PDict m)
      /\ fst (App.generate_code (calm_world (inr sample_result)) sample_globals
                todo_request [])
         = inr (App.code_generated
                  (dict_get m "project_description" (PStr (lit "")))
                  (dict_get m "requirements" (PStr (lit ""))) sample_result)
      /\ field "generated_code"
           (resp_json (App.code_generated
                         (dict_get m "project_description" (PStr (lit "")))
                         (dict_get m "requirements" (PStr (lit ""))) sample_result))
         = Some (PStr (lit "print(1)")))
  /\ fst (AppV2.generate_news (calm_world (inr sample_result)) sample_globals_v2
            tides_request [])
     = inr {| resp_json := jsonify [(lit "success", PBool true);
                                    (lit "article", PStr (lit "print(1)"))];
              resp_status := 200 |}.
Proof.
  split.
  - refine (proj1 (handlers_report_the_executor_result
                     (calm_world (inr sample_result)) sample_globals sample_globals_v2
                     todo_request []
                     (built_crew (calm_world (inr sample_result)) sample_globals
                        (PStr (lit "a todo list")) (PStr (lit "dark mode")))
                     sample_result) _).
    find_event.
  - refine (proj1 (proj2 (handlers_report_the_executor_result
                     (calm_world (inr sample_result)) sample_globals sample_globals_v2
                     tides_request []
                     (built_news_crew (calm_world (inr sample_result)) sample_globals_v2
                        (PStr (lit "tides")))
                     sample_result) _)).
    find_event.
Defined.

Lemma attribute_error_text v :
  exn_str (AttributeError v (lit "get"))
  = lit "'" ++ type_name v ++ lit "' object has no attribute 'get'".
Proof. reflexivity. Qed.

Lemma attribute_error_is_generic v :
  is_dict v = false ->
  str_in (lit "API") (ascii_upper (exn_str (AttributeError v (lit "get")))) = false
  /\ str_in (lit "MODEL") (ascii_upper (exn_str (AttributeError v (lit "get")))) = false.
Proof. destruct v; intros Hd; try discriminate Hd; split; vm_compute; reflexivity. Qed.

(** X10: a body that is not a JSON object (a string, a number, an array,
    [null], ...) is answered through the [except] branch with the text of
    the [AttributeError] on [data.get]: [generate_code] puts it after
    [Failed to generate code: ], and [generate_news], when [upper] maps this
    ASCII text as ASCII, after [An error occurred: ]. *)
Theorem non_object_body_is_an_attribute_error :
  forall W G1 G2 req h v,
    get_json req = inr v ->
    is_dict v = false ->
    fst (App.generate_code W G1 req h)
    = inr (failure_response
             (lit "Failed to generate code: '" ++ type_name v
              ++ lit "' object has no attribute 'get'"))
    /\ (rt_upper W (exn_str (AttributeError v (lit "get")))
        = ascii_upper (exn_str (AttributeError v (lit "get"))) ->
        fst (AppV2.generate_news W G2 req h)
        = inr (failure_response
                 (lit "An error occurred: '" ++ type_name v
                  ++ lit "' object has no attribute 'get'"))).
Proof.
  intros W G1 G2 req h v Hj Hd. split.
  - destruct (generate_code_runs W G1 req h); try same_body; try discriminate Hd.
    reflexivity.
  - intros Hup.
    destruct (generate_news_runs W G2 req h); try same_body; try discriminate Hd.
    cbn [fst]. unfold AppV2.friendly_error. rewrite Hup.
    destruct (attribute_error_is_generic v Hd) as [-> ->]. reflexivity.
Qed.

Lemma non_object_body_witness :
  fst (App.generate_code (calm_world (inr sample_result)) sample_globals
         array_request [])
  = inr (failure_response
           (lit "Failed to generate code: 'list' object has no attribute 'get'"))
  /\ fst (AppV2.generate_news (calm_world (inr sample_result)) sample_globals_v2
            array_request [])
     = inr (failure_response
              (lit "An error occurred: 'list' object has no attribute 'get'")).
Proof.
  destruct (non_object_body_is_an_attribute_error
              (calm_world (inr sample_result)) sample_globals sample_globals_v2
              array_request [] (PList [PInt 1]) eq_refl eq_refl) as [H1 H2].
  split; [ exact H1 | exact (H2 eq_refl) ].
Defined.

(** ** Requests share no state *)

Lemma history_free_ret {A} (a : A) : history_free (ret a).
Proof. intros h h'. reflexivity. Qed.

Lemma history_free_raise {A} e : history_free (@raise A e).
Proof. intros h h'. reflexivity. Qed.

Lemma history_free_print s : history_free (print s).
Proof. intros h h'. reflexivity. Qed.

Lemma history_free_print_exc e : history_free (print_exc e).
Proof. intros h h'. reflexivity. Qed.

Lemma history_free_get_json req : history_free (request_get_json req).
Proof. intros h h'. reflexivity. Qed.

Lemma history_free_py_get data key d : history_free (py_get data key d).
Proof. intros h h'. destruct data; reflexivity. Qed.

Lemma history_free_bind {A B} (m : M A) (f : A -> M B) :
  history_free m -> (forall a, history_free (f a)) -> history_free (bind m f).
Proof.
  intros Hm Hf h h'. unfold bind. rewrite (Hm h h').
  destruct (m h') as [[e | a] evs]; [ reflexivity | ].
  now rewrite (Hf a (h ++ evs) (h' ++ evs)).
Qed.

Lemma history_free_try_except {A} (m : M A) (k : exn -> M A) :
  history_free m -> (forall e, history_free (k e)) -> history_free (try_except m k).
Proof.
  intros Hm Hk h h'. unfold try_except. rewrite (Hm h h').
  destruct (m h') as [[e | a] evs]; [ | reflexivity ].
  now rewrite (Hk e (h ++ evs) (h' ++ evs)).
Qed.

Lemma history_free_Task_new W t : stateless W -> history_free (Task_new W t).
Proof.
  intros (_ & _ & HT & _) h h'. unfold Task_new. now rewrite (HT h h').
Qed.

Lemma history_free_Crew_new W c : stateless W -> history_free (Crew_new W c).
Proof.
  intros (_ & _ & _ & HC & _) h h'. unfold Crew_new. now rewrite (HC h h').
Qed.

Lemma history_free_kickoff W c : stateless W -> history_free (Crew_kickoff W c).
Proof.
  intros (_ & _ & _ & _ & HK) h h'. unfold Crew_kickoff. now rewrite (HK h h').
Qed.

(** Chains of calls to a stateless library do the same after every
    history. *)
Ltac chain_free HW :=
  repeat first
    [ apply history_free_ret
    | apply history_free_raise
    | apply history_free_print
    | apply history_free_print_exc
    | apply history_free_get_json
    | apply history_free_py_get
    | apply (history_free_Task_new _ _ HW)
    | apply (history_free_Crew_new _ _ HW)
    | apply (history_free_kickoff _ _ HW)
    | apply history_free_bind; [ | intros ]
    | apply history_free_try_except; [ | intros ]
    | match goal with
      | |- history_free (if ?b then _ else _) => destruct b
      | |- history_free (match ?o with Some _ => _ | None => _ end) => destruct o
      end ].

(** X11: the handlers keep no state of their own between requests: with a
    library that keeps none, the response and the events of
    [generate_code] and of [generate_news] are the same whatever happened
    before the request. *)
Theorem handlers_keep_no_state :
  forall W G1 G2 req,
    stateless W ->
    history_free (App.generate_code W G1 req)
    /\ history_free (AppV2.generate_news W G2 req).
Proof.
  intros W G1 G2 req HW. split.
  - unfold App.generate_code, App.generate_code_try, App.generate_code_except,
      App.create_code_generation_crew.
    chain_free HW.
  - unfold AppV2.generate_news, AppV2.generate_news_try, AppV2.generate_news_except,
      AppV2.create_news_crew, AppV2.create_news_crew_try.
    chain_free HW.
Qed.

Lemma handlers_keep_no_state_witness :
  App.generate_code (calm_world (inr sample_result)) sample_globals todo_request []
  = App.generate_code (calm_world (inr sample_result)) sample_globals todo_request
      [EvPrint (lit "an earlier request")]
  /\ AppV2.generate_news (calm_world (inr sample_result)) sample_globals_v2
       tides_request []
     = AppV2.generate_news (calm_world (inr sample_result)) sample_globals_v2
         tides_request [EvPrint (lit "an earlier request")].
Proof.
  destruct (handlers_keep_no_state (calm_world (inr sample_result))
              sample_globals sample_globals_v2 todo_request) as [H1 _].
  { repeat split. }
  destruct (handlers_keep_no_state (calm_world (inr sample_result))
              sample_globals sample_globals_v2 tides_request) as [_ H2].
  { repeat split. }
  split; [ apply H1 | apply H2 ].
Defined.

(** ** The modules at import, call by call *)

Lemma LLM_new_inr W l h l' evs :
  LLM_new W l h = (inr l', evs) -> l' = l /\ evs = [EvLLM l None].
Proof.
  unfold LLM_new. destruct (lib_LLM W h l); [ discriminate | ].
  intros H. apply returned_inj in H as [<- <-]. now split.
Qed.

Lemma Agent_new_inr W a h a' evs :
  Agent_new W a h = (inr a', evs) -> a' = a /\ evs = [EvAgent a None].
Proof.
  unfold Agent_new. destruct (lib_Agent W h a); [ discriminate | ].
  intros H. apply returned_inj in H as [<- <-]. now split.
Qed.

(** As [step_call], for the constructors of [LLM] and [Agent]. *)
Ltac step_import H :=
  lazymatch type of H with
  | context [LLM_new ?W ?x ?h] =>
      let E := fresh "E" in
      let x' := fresh "l" in
      let l := fresh "evs" in
      destruct (LLM_new W x h) as [[? | x'] l] eqn:E;
      [ try discriminate H
      | apply LLM_new_inr in E; destruct E as [-> ->]; cbv beta iota in H ]
  | context [Agent_new ?W ?x ?h] =>
      let E := fresh "E" in
      let x' := fresh "a" in
      let l := fresh "evs" in
      destruct (Agent_new W x h) as [[? | x'] l] eqn:E;
      [ try discriminate H
      | apply Agent_new_inr in E; destruct E as [-> ->]; cbv beta iota in H ]
  end.

Lemma get_llm_outcome W key h :
    (AppV2.get_llm W key h
     = (inr (LLMObject (mkLLM (lit "gemini/gemini-1.5-flash") key (7 # 10))),
        [EvLLM (mkLLM (lit "gemini/gemini-1.5-flash") key (7 # 10)) None]))
    \/ (exists e m,
           AppV2.get_llm W key h
           = (inr (LLMDict m),
              [EvLLM (mkLLM (lit "gemini/gemini-1.5-flash") key (7 # 10)) (Some e);
               EvPrint (lit "Option 1 failed: " ++ exn_str e)])
           /\ m !! lit "model" = Some (PStr (lit "gemini-1.5-flash"))
           /\ m !! lit "api_key"
              = Some (match key with Some k => PStr k | None => PNone end)
           /\ m !! lit "temperature" = Some (PFloat (7 # 10))).
Proof.
  unfold AppV2.get_llm, try_except, bind, ret, print, LLM_new.
  destruct (lib_LLM W h _) as [e | ].
  - right. eexists e, _. split; [ reflexivity | ]. repeat split.
  - left. reflexivity.
Qed.

(** X12: [get_llm] never raises and never returns [None]: it returns the
    [LLM] object when the constructor returns, and otherwise, after printing
    the error, the dictionary with the model name [gemini-1.5-flash], the
    key and the temperature. *)
Theorem get_llm_never_fails :
  forall W key h,
    (AppV2.get_llm W key h
     = (inr (LLMObject (mkLLM (lit "gemini/gemini-1.5-flash") key (7 # 10))),
        [EvLLM (mkLLM (lit "gemini/gemini-1.5-flash") key (7 # 10)) None]))
    \/ (exists e m,
           AppV2.get_llm W key h
           = (inr (LLMDict m),
              [EvLLM (mkLLM (lit "gemini/gemini-1.5-flash") key (7 # 10)) (Some e);
               EvPrint (lit "Option 1 failed: " ++ exn_str e)])
           /\ m !! lit "model" = Some (PStr (lit "gemini-1.5-flash"))
           /\ m !! lit "api_key"
              = Some (match key with Some k => PStr k | None => PNone end)
           /\ m !! lit "temperature" = Some (PFloat (7 # 10))).
Proof. exact get_llm_outcome. Qed.

Lemma create_agents_try_stops W llm h r evs :
  AppV2.create_agents W llm h = (r, evs) ->
  (exists a b c d,
      r = inr (Some a, Some b, Some c, Some d)
      /\ evs = [EvAgent a None; EvAgent b None; EvAgent c None; EvAgent d None]
      /\ map role [a; b; c; d]
         = [lit "Investigative Journalist"; lit "News Writer";
            lit "Content Editor"; lit "Final Editor"]
      /\ map agent_llm [a; b; c; d] = [llm; llm; llm; llm])
  \/ (exists e pre ev,
         r = inr (None, None, None, None)
         /\ evs = pre ++ [ev; EvPrint (lit "Error creating agents: " ++ exn_str e)]
         /\ Forall quiet pre
         /\ is_agent_construction ev = true
         /\ raised_by ev = Some e).
Proof.
  unfold AppV2.create_agents, try_except.
  match goal with
  | |- context [match ?body h with _ => _ end] => set (try_body := body)
  end.
  assert (stops_at_failure try_body) as Hstop by (subst try_body; chain_stops).
  assert (emits_only is_agent_construction try_body) as Hemit
      by (subst try_body; chain_emits).
  destruct (try_body h) as [[e | created] evs1] eqn:Etry; intros H.
  - cbv [bind print ret] in H. injection H as <- <-.
    destruct (Hstop _ _ _ Etry) as (pre & ev & -> & Hpre & Hev).
    right. exists e, pre, ev. rewrite ?app_nil_r, <- ?app_assoc. cbn [app].
    repeat split; try assumption.
    apply (Hemit _ _ _ ev Etry). apply in_or_app. right. now left.
  - injection H as <- <-. left.
    subst try_body. unfold bind, ret in Etry.
    do 4 step_import Etry.
    apply returned_inj in Etry as [<- <-].
    do 4 eexists. repeat split.
Qed.

(** X13: [create_agents] never raises: it returns the four agents, with the
    four fixed roles and the given [llm], after four constructor calls that
    returned, or it returns four times [None] after a constructor raised,
    having made no further call and printed the error. *)
Theorem create_agents_all_or_nothing :
  forall W llm h,
    (exists a b c d,
        AppV2.create_agents W llm h
        = (inr (Some a, Some b, Some c, Some d),
           [EvAgent a None; EvAgent b None; EvAgent c None; EvAgent d None])
        /\ map role [a; b; c; d]
           = [lit "Investigative Journalist"; lit "News Writer";
              lit "Content Editor"; lit "Final Editor"]
        /\ map agent_llm [a; b; c; d] = [llm; llm; llm; llm])
    \/ (exists e pre ev,
           AppV2.create_agents W llm h
           = (inr (None, None, None, None),
              pre ++ [ev; EvPrint (lit "Error creating agents: " ++ exn_str e)])
           /\ Forall quiet pre
           /\ is_agent_construction ev = true
           /\ raised_by ev = Some e).
Proof.
  intros W llm h.
  destruct (AppV2.create_agents W llm h) as [r evs] eqn:Hrun.
  destruct (create_agents_try_stops _ _ _ _ _ Hrun)
    as [(a & b & c & d & -> & -> & Hroles & Hllm)
       | (e & pre & ev & -> & -> & Hpre & Hag & Hev)].
  - left. exists a, b, c, d. auto.
  - right. exists e, pre, ev. auto.
Qed.

Lemma news_import_emits W key :
  emits_only (fun ev => negb (is_construction ev) && negb (is_model_call ev))
    (AppV2.import_module W key).
Proof.
  unfold AppV2.import_module, AppV2.get_llm, AppV2.create_agents.
  destruct (negb (AppV2.key_truthy key)); chain_emits.
  match goal with
  | |- emits_only _ (let (_, _) := ?x in _) => destruct x as [[[? ?] ?] ?]
  end.
  chain_emits.
Qed.

(** X14: with a key in the environment the news module always loads,
    whatever the library does: the import returns module-level names with
    that key, an [llm] that is not [None], and the four agents either all
    present or all [None]; it constructs no [Task] and no [Crew] and calls
    no executor. *)
Theorem news_module_always_loads :
  forall W key h,
    AppV2.key_truthy key = true ->
    exists g evs,
      AppV2.import_module W key h = (inr g, evs)
      /\ AppV2.api_key g = key
      /\ AppV2.llm g <> LLMNone
      /\ ((exists a b c d,
              AppV2.journalist_agent g = Some a /\ AppV2.news_writer_agent g = Some b
              /\ AppV2.sentence_cleaner_agent g = Some c
              /\ AppV2.merger_agent g = Some d)
          \/ (AppV2.journalist_agent g = None /\ AppV2.news_writer_agent g = None
              /\ AppV2.sentence_cleaner_agent g = None
              /\ AppV2.merger_agent g = None))
      /\ forall ev, In ev evs -> is_construction ev = false /\ is_model_call ev = false.
Proof.
  intros W key h Hkey.
  destruct (AppV2.import_module W key h) as [r evs] eqn:Hrun.
  assert (forall ev, In ev evs -> is_construction ev = false /\ is_model_call ev = false)
    as Hevs.
  { intros ev Hin. pose proof (news_import_emits W key _ _ _ ev Hrun Hin) as HP.
    cbv beta in HP. destruct ev; try discriminate HP; split; reflexivity. }
  unfold AppV2.import_module in Hrun. rewrite Hkey in Hrun. cbn [negb] in Hrun.
  unfold bind at 1 in Hrun.
  destruct (get_llm_outcome W key h) as [Hl | (e & m & Hl & _)];
    rewrite Hl in Hrun; unfold bind at 1 in Hrun;
    match type of Hrun with
    | context [AppV2.create_agents W ?l ?hh] =>
        destruct (AppV2.create_agents W l hh) as [r' evs'] eqn:Hc
    end;
    destruct (create_agents_try_stops _ _ _ _ _ Hc)
      as [(a & b & c & d & -> & -> & _) | (e' & pre & ev & -> & -> & _)];
    cbv [ret] in Hrun; injection Hrun as <- <-;
    eexists _, _; (split; [ reflexivity | ]);
    cbn [AppV2.api_key AppV2.llm AppV2.journalist_agent AppV2.news_writer_agent
           AppV2.sentence_cleaner_agent AppV2.merger_agent];
    (split; [ reflexivity | split; [ discriminate | split; [ | exact Hevs ] ] ]).
  - left. now exists a, b, c, d.
  - right. auto.
  - left. now exists a, b, c, d.
  - right. auto.
Qed.

Lemma news_module_loads_witness :
  exists g evs,
    AppV2.import_module (agent_rejecting_world boom) sample_key [] = (inr g, evs)
    /\ AppV2.api_key g = sample_key
    /\ AppV2.llm g <> LLMNone
    /\ ((exists a b c d,
            AppV2.journalist_agent g = Some a /\ AppV2.news_writer_agent g = Some b
            /\ AppV2.sentence_cleaner_agent g = Some c
            /\ AppV2.merger_agent g = Some d)
        \/ (AppV2.journalist_agent g = None /\ AppV2.news_writer_agent g = None
            /\ AppV2.sentence_cleaner_agent g = None
            /\ AppV2.merger_agent g = None))
    /\ forall ev, In ev evs -> is_construction ev = false /\ is_model_call ev = false.
Proof.
  exact (news_module_always_loads (agent_rejecting_world boom) sample_key [] eq_refl).
Defined.

Lemma code_import_emits W key :
  emits_only is_agent_construction (App.import_module W key).
Proof.
  unfold App.import_module.
  destruct (negb (App.key_truthy key)); chain_emits.
Qed.

Lemma code_import_stops W key :
  App.key_truthy key = true -> stops_at_failure (App.import_module W key).
Proof.
  intros Hkey. unfold App.import_module. rewrite Hkey. cbn [negb]. chain_stops.
Qed.

(** X15: the code-generation module loads only if the key is set and the
    [LLM] and all eight [Agent] constructors return: the module-level names
    then hold that key, the [LLM] of model [gemini/gemini-1.5-flash] and the
    eight agents with their fixed roles, all on that [LLM]; otherwise the
    import raises, without any call when the key is missing, and else right
    after the constructor call that raised. *)
Theorem code_module_loads_all_or_fails :
  forall W key h,
    match fst (App.import_module W key h) with
    | inr g =>
        App.key_truthy key = true
        /\ App.api_key g = key
        /\ App.llm g = mkLLM (lit "gemini/gemini-1.5-flash") key (7 # 10)
        /\ map role [App.flowchart_agent g; App.choice_provider_agent g;
                     App.architecture_agent g; App.code_generator_agent g;
                     App.design_enhancer_agent g; App.error_fixer_agent g;
                     App.testing_agent g; App.delivery_agent g]
           = [lit "Flowchart Generator"; lit "Technology Choice Provider";
              lit "System Architecture Designer"; lit "Code Generator";
              lit "Design & Animation Enhancer"; lit "Code Error Fixer";
              lit "Code Testing Specialist"; lit "Code Delivery Specialist"]
        /\ Forall (fun a => agent_llm a = LLMObject (App.llm g))
             [App.flowchart_agent g; App.choice_provider_agent g;
              App.architecture_agent g; App.code_generator_agent g;
              App.design_enhancer_agent g; App.error_fixer_agent g;
              App.testing_agent g; App.delivery_agent g]
        /\ snd (App.import_module W key h)
           = EvLLM (App.llm g) None
             :: map (fun a => EvAgent a None)
                  [App.flowchart_agent g; App.choice_provider_agent g;
                   App.architecture_agent g; App.code_generator_agent g;
                   App.design_enhancer_agent g; App.error_fixer_agent g;
                   App.testing_agent g; App.delivery_agent g]
    | inl e =>
        (App.key_truthy key = false
         /\ e = ValueError (lit "GEMINI_API_KEY not found in environment variables")
         /\ snd (App.import_module W key h) = [])
        \/ (App.key_truthy key = true
            /\ exists pre ev,
                 snd (App.import_module W key h) = pre ++ [ev]
                 /\ Forall quiet pre
                 /\ is_agent_construction ev = true
                 /\ raised_by ev = Some e)
    end.
Proof.
  intros W key h.
  destruct (App.import_module W key h) as [r evs] eqn:Hrun. cbn [fst snd].
  destruct (App.key_truthy key) eqn:Hkey.
  - destruct r as [e | g].
    + right. split; [ reflexivity | ].
      destruct (code_import_stops W key Hkey _ _ _ Hrun) as (pre & ev & -> & Hpre & Hev).
      exists pre, ev. repeat split; try assumption.
      apply (code_import_emits W key _ _ _ ev Hrun). apply in_or_app. right. now left.
    + unfold App.import_module in Hrun. rewrite Hkey in Hrun. cbn [negb] in Hrun.
      unfold bind, ret in Hrun.
      step_import Hrun. do 8 step_import Hrun.
      apply returned_inj in Hrun as [<- <-].
      split; [ reflexivity | ]. split; [ reflexivity | ]. split; [ reflexivity | ].
      split; [ reflexivity | ]. split; [ | reflexivity ].
      repeat (constructor; [ reflexivity | ]). constructor.
  - unfold App.import_module in Hrun. rewrite Hkey in Hrun. cbn [negb] in Hrun.
    cbv [raise] in Hrun. injection Hrun as <- <-. left. auto.
Qed.

(** ** The probe, the script and the static routes *)

(** X16: the probe [test_api] calls nothing but the [Agent] constructor, at
    most once, and not at all when the key is missing; in particular it
    reports [API is working] without any call of the executor. *)
Theorem test_api_only_constructs_an_agent :
  forall W G req h,
    (AppV2.key_truthy (AppV2.api_key G) = false ->
     snd (AppV2.dispatch W G AppV2.GET_test_api req h) = [])
    /\ (AppV2.key_truthy (AppV2.api_key G) = true ->
        snd (AppV2.dispatch W G AppV2.GET_test_api req h)
        = [EvAgent (AppV2.test_agent G) (lib_Agent W h (AppV2.test_agent G))])
    /\ (forall ev, In ev (snd (AppV2.dispatch W G AppV2.GET_test_api req h)) ->
                   is_model_call ev = false /\ is_construction ev = false).
Proof.
  intros W G req h. cbn [AppV2.dispatch].
  unfold AppV2.test_api, try_except.
  destruct (AppV2.key_truthy (AppV2.api_key G)); cbn [negb].
  - unfold bind, Agent_new, ret.
    destruct (lib_Agent W h (AppV2.test_agent G)); cbn [fst snd app];
      (split; [ discriminate | split; [ reflexivity | ] ]);
      intros ev [<- | []]; split; reflexivity.
  - cbn [ret snd]. split; [ reflexivity | split; [ discriminate | ] ].
    intros ev [].
Qed.

Lemma test_api_constructs_witness :
  snd (AppV2.dispatch (agent_rejecting_world boom) sample_globals_v2
         AppV2.GET_test_api null_request [])
  = [EvAgent (AppV2.test_agent sample_globals_v2) (Some boom)].
Proof.
  exact (proj1 (proj2 (test_api_only_constructs_an_agent
                         (agent_rejecting_world boom) sample_globals_v2
                         null_request [])) eq_refl).
Defined.

Lemma setup_try_stops W key :
  stops_at_failure (TestSetup.test_crewai_setup_try W key).
Proof. unfold TestSetup.test_crewai_setup_try. chain_stops. Qed.

(** Run the five library calls of the script, in every way they can end. *)
Ltac run_setup :=
  unfold TestSetup.test_crewai_setup_try, bind, ret, print, Crew_kickoff,
    LLM_new, Agent_new, Task_new, Crew_new;
  repeat match goal with
    | |- context [lib_LLM ?W ?h ?x] => destruct (lib_LLM W h x); cbv beta iota
    | |- context [lib_Agent ?W ?h ?x] => destruct (lib_Agent W h x); cbv beta iota
    | |- context [lib_Task ?W ?h ?x] => destruct (lib_Task W h x); cbv beta iota
    | |- context [lib_Crew ?W ?h ?x] => destruct (lib_Crew W h x); cbv beta iota
    | |- context [lib_kickoff ?W ?h ?x] => destruct (lib_kickoff W h x); cbv beta iota
    end.

Lemma setup_try_returns W key h ok evs :
  TestSetup.test_crewai_setup_try W key h = (inr ok, evs) ->
  ok = true /\ executor_returned evs /\ model_calls evs = 1%nat.
Proof.
  run_setup; intros H; try discriminate H; injection H as <- <-.
  split; [ reflexivity | split; [ | reflexivity ] ].
  eexists _, _. cbn [app In]. repeat first [ left; reflexivity | right ].
Qed.

Lemma setup_try_raises W key h e evs :
  TestSetup.test_crewai_setup_try W key h = (inl e, evs) ->
  (forall crew res, ~ In (EvKickoff crew (inr res)) evs)
  /\ (model_calls evs <= 1)%nat.
Proof.
  run_setup; intros H; try discriminate H; injection H as <- <-;
    (split; [ intros crew res Hin; split_membership Hin
            | unfold model_calls; cbn [app List.filter is_model_call length]; lia ]).
Qed.

(** X17: the script [test_crewai_setup] never raises. Without the key it
    prints one line, calls nothing and returns [False]. With the key it
    returns [True] exactly when the executor was called and returned; when
    it returns [False], a library call raised, no call was made after it, and
    the traceback of that exception was printed. The executor is called at
    most once. *)
Theorem test_crewai_setup_outcome :
  forall W key h,
    exists ok evs,
      TestSetup.test_crewai_setup W key h = (inr ok, evs)
      /\ (TestSetup.key_truthy key = false ->
          ok = false
          /\ evs = [EvPrint ([10060%N] ++ lit " GEMINI_API_KEY not found!")])
      /\ (ok = true <-> executor_returned evs)
      /\ (TestSetup.key_truthy key = true -> ok = false ->
          exists e pre ev,
            evs = EvPrint ([9989%N] ++ lit " API key found")
                  :: pre ++ [ev; EvPrint ([10060%N] ++ lit " Error: " ++ exn_str e);
                             EvPrintExc e]
            /\ Forall quiet pre
            /\ is_library_call ev = true
            /\ raised_by ev = Some e)
      /\ (model_calls evs <= 1)%nat.
Proof.
  intros W key h. unfold TestSetup.test_crewai_setup, executor_returned.
  destruct (TestSetup.key_truthy key) eqn:Hkey; cbn [negb].
  - unfold bind at 1, print at 1, try_except.
    destruct (TestSetup.test_crewai_setup_try W key _) as [[e | ok] evs1] eqn:Etry.
    + cbv [bind print print_exc ret]. cbn [app]. rewrite ?app_nil_r.
      destruct (setup_try_raises _ _ _ _ _ Etry) as [Hno Hone].
      destruct (setup_try_stops W key _ _ _ Etry) as (pre & ev & Hevs & Hpre & Hev).
      eexists _, _. split; [ reflexivity | ].
      split; [ discriminate | split; [ split | split ] ].
      * discriminate.
      * intros (crew & res & Hin). exfalso.
        split_membership Hin; exact (Hno _ _ Hin).
      * intros _ _. exists e, pre, ev. rewrite Hevs, <- app_assoc. cbn [app].
        repeat split; try assumption.
        destruct ev; try reflexivity; discriminate Hev.
      * unfold model_calls in *. cbn [List.filter is_model_call].
        rewrite List.filter_app. cbn [List.filter is_model_call].
        rewrite app_nil_r. exact Hone.
    + destruct (setup_try_returns _ _ _ _ _ Etry) as (-> & (crew & res & Hin) & Hone).
      eexists _, _. split; [ reflexivity | ].
      split; [ discriminate | split; [ split | split ] ].
      * intros _. exists crew, res. right. exact Hin.
      * reflexivity.
      * discriminate.
      * unfold model_calls in *. cbn [app List.filter is_model_call]. lia.
  - cbv [bind print ret]. cbn [app].
    eexists _, _. split; [ reflexivity | ].
    split; [ auto | split; [ split | split ] ]; try discriminate.
    + intros (crew & res & Hin). split_membership Hin.
    + unfold model_calls. cbn. lia.
Qed.

Lemma test_crewai_setup_witness :
  exists e pre ev,
    snd (TestSetup.test_crewai_setup (task_rejecting_world boom) sample_key [])
    = EvPrint ([9989%N] ++ lit " API key found")
      :: pre ++ [ev; EvPrint ([10060%N] ++ lit " Error: " ++ exn_str e); EvPrintExc e]
    /\ Forall quiet pre
    /\ is_library_call ev = true
    /\ raised_by ev = Some e.
Proof.
  destruct (test_crewai_setup_outcome (task_rejecting_world boom) sample_key [])
    as (ok & evs & Hrun & _ & _ & Hfail & _).
  destruct ok.
  - exfalso. vm_compute in Hrun. discriminate Hrun.
  - destruct (Hfail eq_refl eq_refl) as (e & pre & ev & Hevs & Hrest).
    exists e, pre, ev. rewrite Hrun. cbn [snd]. now split.
Defined.

(** X18: [GET /agent_status] answers 200 whatever the history, with eight
    agents, all [ready], numbered 1 to 8: as many as [agents_used] in the
    statistics of [generate_code] and as a pipeline of the builder has
    stages. *)
Theorem agent_status_matches_the_pipeline :
  forall h,
    exists entries,
      App.dispatch_static App.GET_agent_status h
      = (inr {| resp_json := jsonify [(lit "agents", PList entries)];
                resp_status := 200 |}, [])
      /\ map (field "phase") entries
         = map (fun k => Some (PInt k)) [1; 2; 3; 4; 5; 6; 7; 8]
      /\ Forall (fun entry => field "status" entry = Some (PStr (lit "ready"))) entries
      /\ (forall pd reqs result stats,
             field "stats" (resp_json (App.code_generated pd reqs result)) = Some stats ->
             field "agents_used" stats = Some (PInt (Z.of_nat (length entries))))
      /\ (forall W G pd reqs hb c evs,
             App.create_code_generation_crew W G pd reqs hb = (inr c, evs) ->
             length (tasks c) = length entries).
Proof.
  intros h. eexists. split; [ reflexivity | ].
  split; [ reflexivity | split; [ | split ] ].
  - repeat (constructor; [ reflexivity | ]). constructor.
  - intros pd reqs result stats Hstats.
    destruct (code_generated_fields pd reqs result)
      as (_ & _ & _ & _ & _ & stats' & Hstats' & Hagents & _).
    cbv zeta in *. rewrite Hstats' in Hstats. injection Hstats as <-. exact Hagents.
  - intros W G pd reqs hb c evs Hb.
    destruct (builder_stages _ _ _ _ _ _ _ Hb)
      as (d1 & d2 & d3 & d4 & d5 & d6 & d7 & d8
          & o1 & o2 & o3 & o4 & o5 & o6 & o7 & o8 & _ & ->).
    reflexivity.
Qed.

(** X19: [GET /generation_status/<job_id>] tracks no job: for every job
    id, submitted or not, and whatever happened before, it answers 200 with
    the same placeholder (processing, 75 percent, phase Code Generation) and
    the job id it was given. *)
Theorem generation_status_is_a_placeholder :
  forall job_id h,
    exists m,
      App.dispatch_static (App.GET_generation_status job_id) h
      = (inr {| resp_json := PDict m; resp_status := 200 |}, [])
      /\ m !! lit "job_id" = Some (PStr job_id)
      /\ m !! lit "status" = Some (PStr (lit "processing"))
      /\ m !! lit "progress" = Some (PInt 75)
      /\ forall job_id' h' m',
           App.dispatch_static (App.GET_generation_status job_id') h'
           = (inr {| resp_json := PDict m'; resp_status := 200 |}, []) ->
           delete (lit "job_id") m' = delete (lit "job_id") m.
Proof.
  intros job_id h. eexists. split; [ reflexivity | ].
  split; [ reflexivity | split; [ reflexivity | split; [ reflexivity | ] ] ].
  intros job_id' h' m' H. cbv [App.dispatch_static App.get_generation_status ret] in H.
  injection H as <-.
  cbn [jsonify list_to_map foldr fst snd uncurry].
  apply map_eq. intros k.
  destruct (decide (k = lit "job_id")) as [-> | Hk].
  - now rewrite !lookup_delete_eq.
  - rewrite !lookup_delete_ne by congruence.
    rewrite !lookup_insert. repeat case_decide; congruence.
Qed.
